(** * Screener scraper: the extraction layer of [scrap_v2.py]

    A shallow embedding of the parsing functions of [src/scrap_v2.py] and
    of the orchestrator [scrape_screener_data], with the properties the
    specification states about them.

    Modelling boundary.  The program works on the tree BeautifulSoup builds
    from markup.  The markup-to-tree step ([BeautifulSoup(text,
    "html.parser")]) is a parameter [html_parser] of the development; the
    tree itself, the text extraction [get_text], the [find]/[find_all]
    searches and the CSS selectors written out in the source are embedded
    by their meaning in bs4 and soupsieve.  The two selectors the
    orchestrator builds at run time from page data go through the
    parameter [css_compile] (soupsieve's selector parser, which can
    reject a string).  HTTP is a function from URL to reply; the run
    records the URLs it requests.  [print] output is not modelled.

    Library behaviour the embedding relies on (bs4 4.11 and later,
    soupsieve 2): a [Tag] is always true, so [if not tag] tests for
    [None]; [get_text] of a tag keeps the strings of the classes that are
    interesting for the tag's name and, with [strip=True], trims each and
    drops the empty ones before joining; [select] looks below the tag it
    is called on and matches the left part of a selector against all
    ancestors, also those above that tag; [find_next_sibling] searches
    all later siblings.

    Characters are code points below 256. *)

From Stdlib Require Import String Ascii List Bool Arith Lia.
Import ListNotations.
Local Open Scope string_scope.
Local Open Scope list_scope.
Local Open Scope nat_scope.

Set Implicit Arguments.
Set Warnings "-register-all".

(* ------------------------------------------------------------------ *)
(** ** Strings as Python uses them *)

Module PyStr.

(** [str.isspace] on one character, for code points below 256:
    TAB..CR, FS..US, SPACE, NEL and NBSP. *)
Definition isspace (c : ascii) : bool :=
  let n := nat_of_ascii c in
  ((9 <=? n) && (n <=? 13)) || ((28 <=? n) && (n <=? 32))
  || (n =? 133) || (n =? 160).

(** [s.lstrip(chars)], the set of characters given as a predicate. *)
Fixpoint lstrip_by (p : ascii -> bool) (s : string) : string :=
  match s with
  | EmptyString => EmptyString
  | String c r => if p c then lstrip_by p r else s
  end.

(** [s.rstrip(chars)]. *)
Fixpoint rstrip_by (p : ascii -> bool) (s : string) : string :=
  match s with
  | EmptyString => EmptyString
  | String c r =>
      match rstrip_by p r with
      | EmptyString => if p c then EmptyString else String c EmptyString
      | r' => String c r'
      end
  end.

(** [s.strip()] *)
Definition strip (s : string) : string := lstrip_by isspace (rstrip_by isspace s).

(** [s.rstrip(":")] and [s.lstrip("#")] *)
Definition is_char (d c : ascii) : bool := Ascii.eqb c d.
Definition rstrip_colon (s : string) : string := rstrip_by (is_char ":") s.
Definition lstrip_hash (s : string) : string := lstrip_by (is_char "#") s.

(** [s.startswith(p)] *)
Definition startswith (p s : string) : bool := String.prefix p s.

(** truth value of a string: non-empty *)
Definition truthy (s : string) : bool :=
  match s with EmptyString => false | String _ _ => true end.

(** [sep.join(l)] *)
Definition join (sep : string) (l : list string) : string := String.concat sep l.

(** ASCII lower-casing, as soupsieve's [util.lower]. *)
Definition lower_char (c : ascii) : ascii :=
  let n := nat_of_ascii c in
  if (65 <=? n) && (n <=? 90) then ascii_of_nat (n + 32) else c.

Fixpoint lower (s : string) : string :=
  match s with
  | EmptyString => EmptyString
  | String c r => String (lower_char c) (lower r)
  end.

(** [needle in s] *)
Fixpoint contains (needle s : string) : bool :=
  String.prefix needle s
  || match s with
     | EmptyString => false
     | String _ r => contains needle r
     end.

Fixpoint last_char (s : string) : option ascii :=
  match s with
  | EmptyString => None
  | String c EmptyString => Some c
  | String _ r => last_char r
  end.

Definition first_char (s : string) : option ascii :=
  match s with
  | EmptyString => None
  | String c _ => Some c
  end.

Fixpoint all_chars (p : ascii -> bool) (s : string) : bool :=
  match s with
  | EmptyString => true
  | String c r => p c && all_chars p r
  end.

End PyStr.

(* ------------------------------------------------------------------ *)
(** ** Python values the parsers return *)

(** A [dict] keeps its keys in insertion order; assigning to a key that is
    present replaces the value where it stands. *)
Module PyDict.
Section Dict.
Variable V : Type.

Definition t := list (string * V).

Fixpoint get (k : string) (d : t) : option V :=
  match d with
  | [] => None
  | (k', v) :: r => if String.eqb k k' then Some v else get k r
  end.

Fixpoint set (k : string) (v : V) (d : t) : t :=
  match d with
  | [] => [(k, v)]
  | (k', v') :: r =>
      if String.eqb k k' then (k', v) :: r else (k', v') :: set k v r
  end.

Definition keys (d : t) : list string := map fst d.
End Dict.
End PyDict.

Inductive value : Type :=
| VStr (s : string)
| VList (l : list value)
| VDict (d : list (string * value)).

Definition vstrs (l : list string) : value := VList (map VStr l).
Definition vrows (l : list (list string)) : value := VList (map vstrs l).

(* ------------------------------------------------------------------ *)
(** ** The document tree *)

(** The classes bs4 gives to the strings of a tree.  [get_text] of a tag
    keeps only the strings of the tag's interesting classes. *)
Inductive str_class : Type :=
| NavigableString | CData | Comment | Stylesheet | Script | TemplateString
| RubyTextString | RubyParenthesisString | OtherString.

Definition str_class_eqb (a b : str_class) : bool :=
  match a, b with
  | NavigableString, NavigableString | CData, CData | Comment, Comment
  | Stylesheet, Stylesheet | Script, Script
  | TemplateString, TemplateString | RubyTextString, RubyTextString
  | RubyParenthesisString, RubyParenthesisString
  | OtherString, OtherString => true
  | _, _ => false
  end.

(** A node is a string or an element with its name, its [class] tokens,
    its other attributes and its children. *)
Inductive node : Type :=
| Str (k : str_class) (s : string)
| Elem (name : string) (classes : list string)
       (attrs : list (string * string)) (children : list node).

(** What a [Tag] object knows about one ancestor: the ancestor's own data
    and the siblings on either side of the path ([fr_before] nearest
    first). *)
Record frame : Type := Frame {
  fr_name : string;
  fr_classes : list string;
  fr_attrs : list (string * string);
  fr_before : list node;
  fr_after : list node
}.

(** A [Tag] as the program holds it: the element together with its place
    in the document ([tg_ctx], parent first). *)
Record tag : Type := Tag {
  tg_ctx : list frame;
  tg_name : string;
  tg_classes : list string;
  tg_attrs : list (string * string);
  tg_children : list node
}.

(** The elements below a node in document order, each with its place;
    [descendants_of] lists a node itself first when it is an element. *)
Fixpoint descendants_of (ctx : list frame) (n : node) {struct n} : list tag :=
  match n with
  | Str _ _ => []
  | Elem nm cl at_ ch =>
      Tag ctx nm cl at_ ch ::
      (fix walk (before rest : list node) {struct rest} : list tag :=
         match rest with
         | [] => []
         | c :: r =>
             descendants_of (Frame nm cl at_ before r :: ctx) c
             ++ walk (c :: before) r
         end) [] ch
  end.

Fixpoint walk_children (ctx : list frame) (nm : string) (cl : list string)
    (at_ : list (string * string)) (before rest : list node) : list tag :=
  match rest with
  | [] => []
  | c :: r =>
      descendants_of (Frame nm cl at_ before r :: ctx) c
      ++ walk_children ctx nm cl at_ (c :: before) r
  end.

(** [tag.descendants], elements only *)
Definition descendants (t : tag) : list tag :=
  walk_children (tg_ctx t) (tg_name t) (tg_classes t) (tg_attrs t) []
                (tg_children t).

(** The strings below a node in document order, with their classes. *)
Fixpoint strings_of (n : node) : list (str_class * string) :=
  match n with
  | Str k s => [(k, s)]
  | Elem _ _ _ ch =>
      (fix go (l : list node) : list (str_class * string) :=
         match l with
         | [] => []
         | c :: r => strings_of c ++ go r
         end) ch
  end.

Definition strings_of_list (l : list node) : list (str_class * string) :=
  flat_map strings_of l.

(** [Tag.interesting_string_types], fixed by the tag's name when the tree
    is built. *)
Definition interesting (name : string) (k : str_class) : bool :=
  if String.eqb name "style" then str_class_eqb k Stylesheet
  else if String.eqb name "script" then str_class_eqb k Script
  else if String.eqb name "template" then str_class_eqb k TemplateString
  else if String.eqb name "rt" then str_class_eqb k RubyTextString
  else if String.eqb name "rp" then str_class_eqb k RubyParenthesisString
  else str_class_eqb k NavigableString || str_class_eqb k CData.

(** [Tag._all_strings(strip)] *)
Definition all_strings (strip : bool) (t : tag) : list string :=
  flat_map
    (fun ks : str_class * string =>
       let (k, s) := ks in
       if interesting (tg_name t) k then
         if strip then
           let s' := PyStr.strip s in
           if PyStr.truthy s' then [s'] else []
         else [s]
       else [])
    (strings_of_list (tg_children t)).

(** [tag.get_text(separator, strip=...)] *)
Definition get_text (sep : string) (strip : bool) (t : tag) : string :=
  PyStr.join sep (all_strings strip t).

(** [tag.get_text(strip=True)] and [tag.get_text(" ", strip=True)] *)
Definition text_strip (t : tag) : string := get_text "" true t.
Definition text_spaced (t : tag) : string := get_text " " true t.
(** [tag.text] *)
Definition text (t : tag) : string := get_text "" false t.

(** The [BeautifulSoup] object over the top-level nodes of a document. *)
Definition soup_of (top : list node) : tag := Tag [] "[document]" [] [] top.

(* ------------------------------------------------------------------ *)
(** ** Searching the tree: bs4's [find] family *)

Definition has_name (names : list string) (t : tag) : bool :=
  existsb (String.eqb (tg_name t)) names.

(** [tag.find_all(names)] *)
Definition find_all (names : list string) (t : tag) : list tag :=
  filter (has_name names) (descendants t).

(** [tag.find(name)] *)
Definition find (name : string) (t : tag) : option tag :=
  hd_error (find_all [name] t).

(** [tag[key]] / [tag.get(key)] *)
Definition attr (key : string) (t : tag) : option string :=
  PyDict.get key (tg_attrs t).

(** [tag.find_all(name, href=True)] *)
Definition find_all_with_attr (name key : string) (t : tag) : list tag :=
  filter (fun d => String.eqb (tg_name d) name
                   && match attr key d with Some _ => true | None => false end)
         (descendants t).

Definition has_class (c : string) (classes : list string) : bool :=
  existsb (String.eqb c) classes.

Fixpoint next_sibling_from (name cls : string) (ctx : list frame)
    (pn : string) (pc : list string) (pa : list (string * string))
    (before rest : list node) : option tag :=
  match rest with
  | [] => None
  | n :: r =>
      match n with
      | Elem nm cl at_ ch =>
          if String.eqb nm name && has_class cls cl
          then Some (Tag (Frame pn pc pa before r :: ctx) nm cl at_ ch)
          else next_sibling_from name cls ctx pn pc pa (n :: before) r
      | Str _ _ => next_sibling_from name cls ctx pn pc pa (n :: before) r
      end
  end.

(** The element a [Tag] stands for, as a node of its parent. *)
Definition node_of (t : tag) : node :=
  Elem (tg_name t) (tg_classes t) (tg_attrs t) (tg_children t).

(** [tag.find_next_sibling(name, class_=cls)]: the first later sibling
    that is an element of that name carrying that class token. *)
Definition find_next_sibling (name cls : string) (t : tag) : option tag :=
  match tg_ctx t with
  | [] => None
  | f :: ctx =>
      next_sibling_from name cls ctx (fr_name f) (fr_classes f) (fr_attrs f)
                        (node_of t :: fr_before f) (fr_after f)
  end.

(* ------------------------------------------------------------------ *)
(** ** CSS selectors: the part of soupsieve the program uses *)

(** A compound selector: optional type, optional id, classes, and
    [[a*='v']] tests. *)
Record compound : Type := Compound {
  c_type : option string;
  c_id : option string;
  c_classes : list string;
  c_attr_sub : list (string * string)
}.

Inductive combinator : Type := Descendant | Child.

(** A complex selector, subject first, then the compounds to its left
    with the combinator that links each to what follows it. *)
Record selector : Type := Selector {
  sel_subject : compound;
  sel_left : list (combinator * compound)
}.

(** Attribute lookup as soupsieve does it on an HTML tree: names compared
    in lower case, first hit. *)
Fixpoint get_attribute_by_name (key : string) (attrs : list (string * string))
  : option string :=
  match attrs with
  | [] => None
  | (k, v) :: r =>
      if String.eqb (PyStr.lower k) (PyStr.lower key) then Some v
      else get_attribute_by_name key r
  end.

Definition match_compound (c : compound) (nm : string) (cl : list string)
    (at_ : list (string * string)) : bool :=
  match c_type c with
  | None => true
  | Some n => String.eqb (PyStr.lower n) (PyStr.lower nm)
  end
  && match c_id c with
     | None => true
     | Some i =>
         match get_attribute_by_name "id" at_ with
         | Some v => String.eqb i v
         | None => String.eqb i ""
         end
     end
  && forallb (fun k => has_class k cl) (c_classes c)
  && forallb (fun av : string * string =>
                match get_attribute_by_name (fst av) at_ with
                | Some v => PyStr.contains (snd av) v
                | None => false
                end) (c_attr_sub c).

Definition match_frame (c : compound) (f : frame) : bool :=
  match_compound c (fr_name f) (fr_classes f) (fr_attrs f).

(** The compounds left of the subject against the ancestors, parent
    first.  A descendant combinator may pick any ancestor. *)
Fixpoint match_left (rels : list (combinator * compound)) (ctx : list frame)
  : bool :=
  match rels with
  | [] => true
  | (Child, c) :: rels' =>
      match ctx with
      | [] => false
      | f :: ctx' => match_frame c f && match_left rels' ctx'
      end
  | (Descendant, c) :: rels' =>
      (fix up (ctx : list frame) : bool :=
         match ctx with
         | [] => false
         | f :: ctx' => (match_frame c f && match_left rels' ctx') || up ctx'
         end) ctx
  end.

Definition matches (s : selector) (t : tag) : bool :=
  match_compound (sel_subject s) (tg_name t) (tg_classes t) (tg_attrs t)
  && match_left (sel_left s) (tg_ctx t).

(** [tag.select(s)]: the matching elements below [tag], document order. *)
Definition select (s : selector) (t : tag) : list tag :=
  filter (matches s) (descendants t).

(** [tag.select_one(s)] *)
Definition select_one (s : selector) (t : tag) : option tag :=
  hd_error (select s t).

(** Selector literals of the source. *)
Definition ty (n : string) : compound := Compound (Some n) None [] [].
Definition ty_cls (n : string) (cs : list string) : compound :=
  Compound (Some n) None cs [].
Definition cls (cs : list string) : compound := Compound None None cs [].
Definition simple (c : compound) : selector := Selector c [].
Definition under (anc sub : compound) : selector :=
  Selector sub [(Descendant, anc)].

(** ["div.company-nav h1.h2.shrink-text"] *)
Definition sel_company_name : selector :=
  under (ty_cls "div" ["company-nav"]) (ty_cls "h1" ["h2"; "shrink-text"]).
(** ["thead tr"], ["tr th"] *)
Definition sel_thead_tr : selector := under (ty "thead") (ty "tr").
Definition sel_tr_th : selector := under (ty "tr") (ty "th").
(** ["th"], ["tr"], ["thead"], ["tbody"], ["tfoot"], ["li"] *)
Definition sel_th : selector := simple (ty "th").
Definition sel_tr : selector := simple (ty "tr").
Definition sel_thead : selector := simple (ty "thead").
Definition sel_tbody : selector := simple (ty "tbody").
Definition sel_tfoot : selector := simple (ty "tfoot").
Definition sel_li : selector := simple (ty "li").
(** ["div.about"], ["div.sub.commentary"] *)
Definition sel_about : selector := simple (ty_cls "div" ["about"]).
Definition sel_key_points : selector :=
  simple (ty_cls "div" ["sub"; "commentary"]).
(** ["#top-ratios > li"], [".name"], [".value"] *)
Definition sel_top_ratios : selector :=
  Selector (ty "li") [(Child, Compound None (Some "top-ratios") [] [])].
Definition sel_name : selector := simple (cls ["name"]).
Definition sel_value : selector := simple (cls ["value"]).
(** ["div.pros ul"], ["div.cons ul"] *)
Definition sel_pros_ul : selector := under (ty_cls "div" ["pros"]) (ty "ul").
Definition sel_cons_ul : selector := under (ty_cls "div" ["cons"]) (ty "ul").
(** ["table.data-table.text-nowrap.striped.mark-visited.no-scroll-right"] *)
Definition peer_classes : list string :=
  ["data-table"; "text-nowrap"; "striped"; "mark-visited"; "no-scroll-right"].
Definition sel_peer_table : selector := simple (ty_cls "table" peer_classes).
(** ["table.data-table"], ["table.ranges-table"] *)
Definition sel_data_table : selector := simple (ty_cls "table" ["data-table"]).
Definition sel_ranges_table : selector :=
  simple (ty_cls "table" ["ranges-table"]).
(** ["div.strong.upper.letter-spacing"] *)
Definition sel_commentary_heading : selector :=
  simple (ty_cls "div" ["strong"; "upper"; "letter-spacing"]).
(** ["div.sub-nav-holder .sub-nav"] *)
Definition sel_sub_nav : selector :=
  under (ty_cls "div" ["sub-nav-holder"]) (cls ["sub-nav"]).
(** ["div[style*='grid-template-columns']"] *)
Definition sel_growth_div : selector :=
  simple (Compound (Some "div") None [] [("style", "grid-template-columns")]).

(* ------------------------------------------------------------------ *)
(** ** The section parsers *)

(** [parse_company_name] *)
Definition parse_company_name (soup : tag) : string :=
  match select_one sel_company_name soup with
  | Some name_tag => text_strip name_tag
  | None => "UnknownCompany"
  end.

(** [any(item for item in row_data)] *)
Definition any_item (row_data : list string) : bool :=
  existsb PyStr.truthy row_data.

(** [[cell.get_text(strip=True) for cell in row.find_all(["th", "td"])]] *)
Definition row_texts (row : tag) : list string :=
  map text_strip (find_all ["th"; "td"] row).

(** The loop over [body.select("tr")] (and over the rows of a [tfoot]):
    a row's texts are appended when one of them is non-empty. *)
Fixpoint collect_rows (rows : list tag) (data_rows : list (list string))
  : list (list string) :=
  match rows with
  | [] => data_rows
  | row :: rest =>
      let row_data := row_texts row in
      if any_item row_data
      then collect_rows rest (data_rows ++ [row_data])
      else collect_rows rest data_rows
  end.

Definition table_headers (table_tag : tag) : list string :=
  match select_one sel_thead_tr table_tag with
  | Some header_row => map text_strip (select sel_th header_row)
  | None => []
  end.

Definition table_rows (table_tag : tag) : list (list string) :=
  match select_one sel_tbody table_tag with
  | Some body => collect_rows (select sel_tr body) []
  | None => []
  end.

(** [parse_table]; the argument is [None] when the caller's [select_one]
    found no table. *)
Definition parse_table (table_tag : option tag) : value :=
  match table_tag with
  | None => VDict []
  | Some t =>
      VDict [("headers", vstrs (table_headers t));
             ("rows", vrows (table_rows t))]
  end.

Definition text_or_empty (f : tag -> string) (o : option tag) : string :=
  match o with
  | Some t => f t
  | None => ""
  end.

(** The loop over [#top-ratios > li]. *)
Fixpoint collect_ratios (items : list tag) (ratio_data : list value)
  : list value :=
  match items with
  | [] => ratio_data
  | r :: rest =>
      match select_one sel_name r, select_one sel_value r with
      | Some name, Some val =>
          collect_ratios rest
            (ratio_data ++ [VDict [("ratio_name", VStr (text_strip name));
                                   ("ratio_value", VStr (text_strip val))]])
      | _, _ => collect_ratios rest ratio_data
      end
  end.

(** [parse_summary_section] *)
Definition parse_summary_section (summary_soup : tag) : value :=
  let data := [] in
  let about_tag := select_one sel_about summary_soup in
  let data := PyDict.set "about" (VStr (text_or_empty text_strip about_tag)) data in
  let key_points_tag := select_one sel_key_points summary_soup in
  let data :=
    PyDict.set "key_points" (VStr (text_or_empty text_spaced key_points_tag)) data in
  let top_ratios := select sel_top_ratios summary_soup in
  let data := PyDict.set "top_ratios" (VList (collect_ratios top_ratios [])) data in
  VDict data.

Definition li_texts (ul : option tag) : list string :=
  match ul with
  | Some u => map text_strip (select sel_li u)
  | None => []
  end.

(** [parse_analysis_section] *)
Definition parse_analysis_section (analysis_soup : tag) : value :=
  let data := [] in
  let data :=
    PyDict.set "pros" (vstrs (li_texts (select_one sel_pros_ul analysis_soup))) data in
  let data :=
    PyDict.set "cons" (vstrs (li_texts (select_one sel_cons_ul analysis_soup))) data in
  VDict data.

(** The three parts [parse_peers_section] reads off the table it found. *)
Definition peer_headers (table : tag) : list string :=
  match select_one sel_thead table with
  | Some thead => map text_strip (select sel_tr_th thead)
  | None => []
  end.

Definition peer_rows (table : tag) : list (list string) :=
  match select_one sel_tbody table with
  | Some tbody => collect_rows (select sel_tr tbody) []
  | None => []
  end.

Definition peer_footer (table : tag) : list (list string) :=
  match select_one sel_tfoot table with
  | Some tfoot => collect_rows (select sel_tr tfoot) []
  | None => []
  end.

(** [parse_peers_section] *)
Definition parse_peers_section (peers_soup : tag) : value :=
  let data := [] in
  match select_one sel_peer_table peers_soup with
  | None =>
      VDict (PyDict.set "peer_comparison"
               (VDict [("info", VStr "No peer table found")]) data)
  | Some table =>
      VDict (PyDict.set "peer_comparison"
               (VDict [("headers", vstrs (peer_headers table));
                       ("rows", vrows (peer_rows table));
                       ("footer", vrows (peer_footer table))]) data)
  end.

(** The six table sections: one [table.data-table] under one key. *)
Definition parse_table_section (key : string) (section : tag) : value :=
  VDict (PyDict.set key (parse_table (select_one sel_data_table section)) []).

Definition parse_quarters_section := parse_table_section "quarterly_results".
Definition parse_profit_loss_section := parse_table_section "profit_loss".
Definition parse_balance_sheet_section := parse_table_section "balance_sheet".
Definition parse_cash_flow_section := parse_table_section "cash_flow".
Definition parse_ratios_section := parse_table_section "ratios".
Definition parse_shareholding_section := parse_table_section "shareholding".

(** [parse_documents_section] *)
Definition parse_documents_section (docs_soup : tag) : value :=
  VDict (PyDict.set "documents_info" (VStr (text_spaced docs_soup)) []).

(* ------------------------------------------------------------------ *)
(** ** The growth tables *)

(** [parse_growth_tables] fills dict objects through two names: [data]
    holds one inner dict per heading and [row_data] is a second
    reference to the inner dict of the current heading.  The inner dicts
    therefore live in a store, and [data] and [row_data] hold
    references into it. *)
Module Growth.

Definition ref := nat.
Definition store := list (PyDict.t string).

Definition alloc (h : store) : ref * store := (length h, h ++ [[]]).

Definition deref (h : store) (r : ref) : PyDict.t string := nth r h [].

Fixpoint update (h : store) (r : ref) (d : PyDict.t string) : store :=
  match h, r with
  | [], _ => []
  | _ :: t, O => d :: t
  | x :: t, S r' => x :: update t r' d
  end.

Record state : Type := State {
  heap : store;
  data : PyDict.t ref;
  heading_text : option string;
  row_data : ref
}.

(** One pass of the inner loop, [for row in rows]. *)
Definition growth_row (st : state) (row : tag) : state :=
  match find "th" row with
  | Some th_el =>
      let h := text_strip th_el in
      let (r, hp) := alloc (heap st) in
      let data' := PyDict.set h r (data st) in
      let row_data' := match PyDict.get h data' with Some x => x | None => r end in
      State hp data' (Some h) row_data'
  | None =>
      let tds := find_all ["td"] row in
      match tds, heading_text st with
      | [td0; td1], Some _ =>
          let label := PyStr.rstrip_colon (text_strip td0) in
          let value := text_strip td1 in
          State (update (heap st) (row_data st)
                        (PyDict.set label value (deref (heap st) (row_data st))))
                (data st) (heading_text st) (row_data st)
      | _, _ => st
      end
  end.

Definition growth_rows (st : state) (rows : list tag) : state :=
  fold_left growth_row rows st.

(** One pass of the outer loop over the row lists of the tables:
    [heading_text = None; row_data = {}], then the rows. *)
Definition growth_table (st : state) (rows : list tag) : state :=
  let (r, hp) := alloc (heap st) in
  growth_rows (State hp (data st) None r) rows.

Definition growth_tables (st : state) (tables : list (list tag)) : state :=
  fold_left growth_table tables st.

(** [data = {}] *)
Definition init : state := State [] [] None 0.

(** The nested dict [data] denotes in a state. *)
Definition view_of (hp : store) (d : PyDict.t ref) : PyDict.t (PyDict.t string) :=
  map (fun kr : string * ref => (fst kr, deref hp (snd kr))) d.

Definition view (st : state) : PyDict.t (PyDict.t string) :=
  view_of (heap st) (data st).

Definition export_inner (m : PyDict.t string) : value :=
  VDict (map (fun lv : string * string => (fst lv, VStr (snd lv))) m).

Definition export (d : PyDict.t (PyDict.t string)) : value :=
  VDict (map (fun km : string * PyDict.t string => (fst km, export_inner (snd km))) d).

(** The row lists [tbl.select("tr")] of the tables of a section. *)
Definition tables_of (section_soup : tag) : list (list tag) :=
  map (select sel_tr) (select sel_ranges_table section_soup).

End Growth.

(** [parse_growth_tables] *)
Definition parse_growth_tables (section_soup : tag) : value :=
  let tables := select sel_ranges_table section_soup in
  match tables with
  | [] => Growth.export (Growth.view Growth.init)
  | _ =>
      Growth.export
        (Growth.view
           (Growth.growth_tables Growth.init (map (select sel_tr) tables)))
  end.

(* ------------------------------------------------------------------ *)
(** ** The commentary document *)

(** The loop of [parse_commentary_html] over the heading nodes. *)
Fixpoint commentary_loop (headings : list tag) (commentary_data : PyDict.t string)
  : PyDict.t string :=
  match headings with
  | [] => commentary_data
  | heading :: rest =>
      let heading_text := text_strip heading in
      match find_next_sibling "div" "sub" heading with
      | Some next_sub =>
          commentary_loop rest
            (PyDict.set heading_text (text_spaced next_sub) commentary_data)
      | None => commentary_loop rest commentary_data
      end
  end.

(** [parse_commentary_html] on the parsed document. *)
Definition parse_commentary_soup (soup : tag) : PyDict.t string :=
  commentary_loop (select sel_commentary_heading soup) [].

Definition export_commentary (d : PyDict.t string) : value :=
  Growth.export_inner d.

(* ------------------------------------------------------------------ *)
(** ** The company identifier *)

Definition dquote : string := String (ascii_of_nat 34) EmptyString.

(** The literal part of the pattern [data-row-company-id="(\d+)"]. *)
Definition id_marker : string := String.append "data-row-company-id=" dquote.

Definition isdigit (c : ascii) : bool :=
  let n := nat_of_ascii c in (48 <=? n) && (n <=? 57).

(** The longest run of digits at the head of a string, and what follows. *)
Fixpoint span_digits (s : string) : string * string :=
  match s with
  | EmptyString => (EmptyString, EmptyString)
  | String c r =>
      if isdigit c
      then let (d, rest) := span_digits r in (String c d, rest)
      else (EmptyString, s)
  end.

Fixpoint drop (n : nat) (s : string) : string :=
  match n, s with
  | O, _ => s
  | S n', String _ r => drop n' r
  | S _, EmptyString => EmptyString
  end.

(** The pattern matched at the head of [s]: group 1 on success. *)
Definition match_id_here (s : string) : option string :=
  if String.prefix id_marker s then
    let (digits, rest) := span_digits (drop (String.length id_marker) s) in
    if PyStr.truthy digits && String.prefix dquote rest then Some digits else None
  else None.

(** [re.search(r'data-row-company-id="(\d+)"', s)], group 1 of the
    leftmost match. *)
Fixpoint search_company_id (s : string) : option string :=
  match match_id_here s with
  | Some d => Some d
  | None =>
      match s with
      | EmptyString => None
      | String _ r => search_company_id r
      end
  end.

(** The loop over the style blocks, leaving at the first match. *)
Fixpoint first_company_id (style_tags : list tag) : option string :=
  match style_tags with
  | [] => None
  | st :: rest =>
      match search_company_id (text st) with
      | Some d => Some d
      | None => first_company_id rest
      end
  end.

(* ------------------------------------------------------------------ *)
(** ** The orchestrator *)

Inductive section_parser : Type :=
| SummaryParser | AnalysisParser | PeersParser | QuartersParser
| ProfitLossParser | BalanceSheetParser | CashFlowParser | RatiosParser
| ShareholdingParser | DocumentsParser.

Definition run_parser (p : section_parser) (section_tag : tag) : value :=
  match p with
  | SummaryParser => parse_summary_section section_tag
  | AnalysisParser => parse_analysis_section section_tag
  | PeersParser => parse_peers_section section_tag
  | QuartersParser => parse_quarters_section section_tag
  | ProfitLossParser => parse_profit_loss_section section_tag
  | BalanceSheetParser => parse_balance_sheet_section section_tag
  | CashFlowParser => parse_cash_flow_section section_tag
  | RatiosParser => parse_ratios_section section_tag
  | ShareholdingParser => parse_shareholding_section section_tag
  | DocumentsParser => parse_documents_section section_tag
  end.

(** [parser_map]; the entry of ["Chart"] is [None]. *)
Definition parser_map : PyDict.t (option section_parser) :=
  [("Summary", Some SummaryParser);
   ("top", Some SummaryParser);
   ("Chart", None);
   ("analysis", Some AnalysisParser);
   ("Analysis", Some AnalysisParser);
   ("peers", Some PeersParser);
   ("Peers", Some PeersParser);
   ("quarters", Some QuartersParser);
   ("Quarters", Some QuartersParser);
   ("profit-loss", Some ProfitLossParser);
   ("Profit & Loss", Some ProfitLossParser);
   ("balance-sheet", Some BalanceSheetParser);
   ("Balance Sheet", Some BalanceSheetParser);
   ("cash-flow", Some CashFlowParser);
   ("Cash Flow", Some CashFlowParser);
   ("ratios", Some RatiosParser);
   ("Ratios", Some RatiosParser);
   ("shareholding", Some ShareholdingParser);
   ("investors", Some ShareholdingParser);
   ("Investors", Some ShareholdingParser);
   ("documents", Some DocumentsParser);
   ("Documents", Some DocumentsParser)].

(** [parser_map.get(key)] *)
Definition parser_map_get (key : string) : option section_parser :=
  match PyDict.get key parser_map with
  | Some p => p
  | None => None
  end.

(** [parser_map.get(link_label) or parser_map.get(section_id)] *)
Definition parser_for (link_label section_id : string) : option section_parser :=
  match parser_map_get link_label with
  | Some p => Some p
  | None => parser_map_get section_id
  end.

Inductive exn : Type :=
| ConnectionError | HTTPError (status : nat) | SelectorSyntaxError (sel : string)
| KeyError (key : string).

Inductive outcome (A : Type) : Type :=
| Returned (a : A)
| Raised (e : exn).
Arguments Returned {A} a.
Arguments Raised {A} e.

(** What [requests.get] meets at a URL. *)
Inductive reply : Type :=
| NoReply
| Reply (status_code : nat) (text : string).

(** [resp.raise_for_status()] raises on 4xx and 5xx. *)
Definition is_error_status (st : nat) : bool := (400 <=? st) && (st <? 600).

Definition results_t := PyDict.t value.

Definition no_parser_info : value :=
  VDict [("info", VStr "No specialized parser for this section.")].

Definition no_commentary_info : value :=
  VDict [("info", VStr "Company ID not found, so commentary not fetched.")].

Definition commentary_url (company_id : string) : string :=
  String.append "https://www.screener.in/wiki/company/"
    (String.append company_id "/commentary/v2/").

Section Orchestrator.

(** [BeautifulSoup(text, "html.parser")]: the top-level nodes. *)
Variable html_parser : string -> list node.
(** soupsieve's parser on a selector string; [None] when it rejects it. *)
Variable css_compile : string -> option selector.
(** The network. *)
Variable http_get : string -> reply.

(** [soup.select_one(s)] for a selector string made at run time. *)
Definition select_one_str (s : string) (soup : tag) : outcome (option tag) :=
  match css_compile s with
  | Some sel => Returned (select_one sel soup)
  | None => Raised (SelectorSyntaxError s)
  end.

(** [soup.select_one(f"section#{id}") or soup.select_one(f"div#{id}")] *)
Definition resolve_section (section_id : string) (soup : tag)
  : outcome (option tag) :=
  match select_one_str (String.append "section#" section_id) soup with
  | Raised e => Raised e
  | Returned (Some t) => Returned (Some t)
  | Returned None => select_one_str (String.append "div#" section_id) soup
  end.

(** The loop over [nav_links]. *)
Fixpoint dispatch_links (soup : tag) (nav_links : list tag) (results : results_t)
  : outcome results_t :=
  match nav_links with
  | [] => Returned results
  | link :: rest =>
      match attr "href" link with
      | None => Raised (KeyError "href")
      | Some href =>
          if negb (PyStr.startswith "#" href) then dispatch_links soup rest results
          else
            let section_id := PyStr.lstrip_hash href in
            if negb (PyStr.truthy section_id) then dispatch_links soup rest results
            else
              let link_label :=
                let t := text_strip link in
                if PyStr.truthy t then t else section_id in
              match resolve_section section_id soup with
              | Raised e => Raised e
              | Returned None => dispatch_links soup rest results
              | Returned (Some section_tag) =>
                  match parser_for link_label section_id with
                  | Some parser_func =>
                      dispatch_links soup rest
                        (PyDict.set link_label (run_parser parser_func section_tag)
                                    results)
                  | None =>
                      dispatch_links soup rest
                        (PyDict.set link_label no_parser_info results)
                  end
              end
      end
  end.

(** [parse_commentary_html] *)
Definition parse_commentary_html (commentary_html : string) : PyDict.t string :=
  parse_commentary_soup (soup_of (html_parser commentary_html)).

(** [fetch_commentary_data] *)
Definition fetch_commentary_data (company_id : string) : outcome (PyDict.t string) :=
  match http_get (commentary_url company_id) with
  | NoReply => Raised ConnectionError
  | Reply st txt =>
      if is_error_status st then Raised (HTTPError st)
      else Returned (parse_commentary_html txt)
  end.

(** The company id step on the parsed page: the match, if any. *)
Definition find_company_id (soup : tag) : option string :=
  first_company_id (find_all ["style"] soup).

(** [company_id or "N/A"] *)
Definition id_or_na (company_id : option string) : string :=
  match company_id with
  | Some i => if PyStr.truthy i then i else "N/A"
  | None => "N/A"
  end.

(** [results] after steps 1 and 2. *)
Definition name_and_id (soup : tag) : results_t :=
  let results := [] in
  let results := PyDict.set "company_name" (VStr (parse_company_name soup)) results in
  PyDict.set "company_id" (VStr (id_or_na (find_company_id soup))) results.

(** Steps 3 to 6 on the parsed page: the requests made after the first
    one, and how the call ends. *)
Definition scrape_soup (soup : tag) : list string * outcome results_t :=
  let company_id := find_company_id soup in
  let results := name_and_id soup in
  match select_one sel_sub_nav soup with
  | None => ([], Returned results)
  | Some sub_nav =>
      let nav_links := find_all_with_attr "a" "href" sub_nav in
      match dispatch_links soup nav_links results with
      | Raised e => ([], Raised e)
      | Returned results =>
          let results :=
            match select_one sel_growth_div soup with
            | Some growth_div =>
                PyDict.set "growth_metrics" (parse_growth_tables growth_div) results
            | None => results
            end in
          match company_id with
          | Some cid =>
              if PyStr.truthy cid then
                match fetch_commentary_data cid with
                | Raised e => ([commentary_url cid], Raised e)
                | Returned commentary_data =>
                    ([commentary_url cid],
                     Returned (PyDict.set "commentary"
                                 (export_commentary commentary_data) results))
                end
              else ([], Returned (PyDict.set "commentary" no_commentary_info results))
          | None =>
              ([], Returned (PyDict.set "commentary" no_commentary_info results))
          end
      end
  end.

(** [scrape_screener_data]: the URLs requested, in order, and the result
    or the exception. *)
Definition scrape_screener_data (url : string) : list string * outcome results_t :=
  match http_get url with
  | NoReply => ([url], Raised ConnectionError)
  | Reply st txt =>
      if is_error_status st then ([url], Raised (HTTPError st))
      else
        let (requests, res) := scrape_soup (soup_of (html_parser txt)) in
        (url :: requests, res)
  end.

End Orchestrator.

(* ------------------------------------------------------------------ *)
(** ** Notions the statements use *)

(** [v[k]] on a returned mapping. *)
Definition vget (k : string) (v : value) : option value :=
  match v with
  | VDict d => PyDict.get k d
  | _ => None
  end.

(** A cell is blank when its whole text is empty once trimmed. *)
Definition cell_blank (cell : tag) : bool :=
  negb (PyStr.truthy (PyStr.strip (text cell))).

(** A row has a cell that is not blank. *)
Definition row_nonblank (row : tag) : bool :=
  existsb (fun cell => negb (cell_blank cell)) (find_all ["th"; "td"] row).

(** The strings [get_text] sees below a tag, untrimmed. *)
Definition raw_strings (t : tag) : list string :=
  map snd (filter (fun ks : str_class * string => interesting (tg_name t) (fst ks))
                  (strings_of_list (tg_children t))).

(** The trimmed strings of a tag that are not empty. *)
Definition pieces (t : tag) : list string :=
  filter PyStr.truthy (map PyStr.strip (raw_strings t)).

Definition trimmed (s : string) : Prop := PyStr.strip s = s.

(** The nested dict after [d[h][l] = v]. *)
Definition nested_set (h l v : string) (d : PyDict.t (PyDict.t string))
  : PyDict.t (PyDict.t string) :=
  match PyDict.get h d with
  | Some m => PyDict.set h (PyDict.set l v m) d
  | None => d
  end.

(** What holds of the two names of [parse_growth_tables] all along: the
    inner dicts of [data] are distinct objects of the store, and while a
    heading is active [row_data] is the inner dict of that heading. *)
Record growth_wf (st : Growth.state) : Prop := GrowthWf {
  wf_distinct : NoDup (map snd (Growth.data st));
  wf_bound : Forall (fun r => r < List.length (Growth.heap st))
                    (map snd (Growth.data st));
  wf_alias : forall h, Growth.heading_text st = Some h ->
                       PyDict.get h (Growth.data st) = Some (Growth.row_data st)
}.

(** The state at the top of the body of the loop over the tables. *)
Definition table_start (st : Growth.state) : Growth.state :=
  Growth.State (Growth.heap st ++ [[]]) (Growth.data st) None
               (List.length (Growth.heap st)).

(** The heading text of a heading row. *)
Definition heading_of (row : tag) : option string :=
  option_map text_strip (find "th" row).

(** A node [find_next_sibling("div", class_="sub")] accepts. *)
Definition is_body_block (n : node) : bool :=
  match n with
  | Elem nm cl _ _ => String.eqb nm "div" && has_class "sub" cl
  | Str _ _ => false
  end.

(** The siblings after a tag, nearest first. *)
Definition later_siblings (t : tag) : list node :=
  match tg_ctx t with
  | [] => []
  | f :: _ => fr_after f
  end.

(** The heading/body pairs of a commentary document in document order:
    one for each heading node that has a body block among its later
    siblings, with the first such block. *)
Definition heading_pair (heading : tag) : list (string * string) :=
  match find_next_sibling "div" "sub" heading with
  | Some body => [(text_strip heading, text_spaced body)]
  | None => []
  end.

Definition commentary_pairs (soup : tag) : list (string * string) :=
  flat_map heading_pair (select sel_commentary_heading soup).

(** A table element that carries every class of the peer table. *)
Definition is_peer_table (t : tag) : Prop :=
  PyStr.lower (tg_name t) = "table"
  /\ forall c, In c peer_classes -> In c (tg_classes t).

(** Neither the first nor the last character of a string is a space. *)
Definition edges_ok (s : string) : Prop :=
  (forall c, PyStr.first_char s = Some c -> PyStr.isspace c = false)
  /\ (forall c, PyStr.last_char s = Some c -> PyStr.isspace c = false).

(** The key under which the loop over the navigation links would store
    the section of a link; [None] for a link the loop passes over before
    it looks for the section. *)
Definition link_label_of (link : tag) : option string :=
  match attr "href" link with
  | None => None
  | Some href =>
      if negb (PyStr.startswith "#" href) then None
      else
        let section_id := PyStr.lstrip_hash href in
        if negb (PyStr.truthy section_id) then None
        else
          let t := text_strip link in
          Some (if PyStr.truthy t then t else section_id)
  end.

Definition nav_labels (nav_links : list tag) : list string :=
  flat_map (fun link => match link_label_of link with
                        | Some l => [l]
                        | None => []
                        end) nav_links.

(* ------------------------------------------------------------------ *)
(** ** Example documents *)

Module Examples.

Definition txt (s : string) : node := Str NavigableString s.
Definition el (name : string) (classes : list string) (children : list node) : node :=
  Elem name classes [] children.
Definition el_at (name : string) (classes : list string)
    (attrs : list (string * string)) (children : list node) : node :=
  Elem name classes attrs children.
(** An element held on its own, outside a document. *)
Definition detached (name : string) (classes : list string) (children : list node)
  : tag := Tag [] name classes [] children.

(** Rows of a growth table. *)
Definition heading_row : tag :=
  detached "tr" [] [el "th" [] [txt "Compounded Sales Growth"]].
Definition ten_years_row : tag :=
  detached "tr" [] [el "td" [] [txt "10 Years:"]; el "td" [] [txt "17%"]].
Definition five_years_row : tag :=
  detached "tr" [] [el "td" [] [txt "5 Years:"]; el "td" [] [txt "14%"]].

(** The state of [parse_growth_tables] after the heading row of a first
    table. *)
Definition after_heading : Growth.state :=
  Growth.growth_rows (table_start Growth.init) [heading_row].

(** A growth section whose second row has a header cell and two data
    cells. *)
Definition growth_section_mixed : tag :=
  detached "div" []
    [el "table" ["ranges-table"]
       [el "tbody" []
          [el "tr" [] [el "th" [] [txt "Compounded Sales Growth"]];
           el "tr" [] [el "th" [] [txt "Period"];
                       el "td" [] [txt "10 Years:"];
                       el "td" [] [txt "17%"]]]]].

(** The tree of
    [<div class='strong upper letter-spacing'>About</div><p>Updated
    daily</p><div class='sub'><p>Kotak Mahindra Bank is a banking
    company.</p></div>]. *)
Definition commentary_gap_markup : string :=
  "<div class='strong upper letter-spacing'>About</div><p>Updated daily</p><div class='sub'><p>Kotak Mahindra Bank is a banking company.</p></div>".
Definition commentary_gap_nodes : list node :=
  [el "div" ["strong"; "upper"; "letter-spacing"] [txt "About"];
   el "p" [] [txt "Updated daily"];
   el "div" ["sub"] [el "p" [] [txt "Kotak Mahindra Bank is a banking company."]]].

(** The commentary document of the end-to-end example. *)
Definition commentary_markup : string :=
  "<div class='strong upper letter-spacing'>About</div><div class='sub'><p>Kotak Mahindra Bank is a banking company.</p></div>".
Definition commentary_nodes : list node :=
  [el "div" ["strong"; "upper"; "letter-spacing"] [txt "About"];
   el "div" ["sub"] [el "p" [] [txt "Kotak Mahindra Bank is a banking company."]]].


(** The style rule that carries the company id. *)
Definition style_text : string :=
  String.append "tr[data-row-company-id="
    (String.append dquote (String.append "12345" (String.append dquote "] td { color: red }"))).

Definition name_block : node :=
  el "div" ["bg-base"; "sticky"; "company-nav"]
    [el "div" ["flex"]
       [el "h1" ["h2"; "shrink-text"] [txt "Kotak Mahindra Bank Ltd"]]].

Definition balance_sheet_block : node :=
  el_at "section" [] [("id", "balance-sheet")]
    [el "table" ["data-table"]
       [el "thead" [] [el "tr" [] [el "th" [] []; el "th" [] [txt "Mar 2024"]]];
        el "tbody" []
          [el "tr" [] [el "td" [] [txt "Equity Capital"]; el "td" [] [txt "994"]]]]].

(** The primary page of the end-to-end example: a name heading, a style
    block with the id, a navigation list with one link, the section. *)
Definition page_markup : string := "page with navigation".
Definition page_nodes : list node :=
  [name_block;
   el "style" [] [Str Stylesheet style_text];
   el "div" ["sub-nav-holder"]
     [el "div" ["sub-nav"]
        [el_at "a" [] [("href", "#balance-sheet")] [txt "Balance Sheet"]]];
   balance_sheet_block].

(** A page with neither a navigation list nor a style block. *)
Definition bare_markup : string := "page without navigation".
Definition bare_nodes : list node := [name_block].

(** A markup-to-tree function that knows the example documents. *)
Definition html_parser (markup : string) : list node :=
  if String.eqb markup page_markup then page_nodes
  else if String.eqb markup bare_markup then bare_nodes
  else if String.eqb markup commentary_markup then commentary_nodes
  else if String.eqb markup commentary_gap_markup then commentary_gap_nodes
  else [].

Definition by_id (name id : string) : selector :=
  Selector (Compound (Some name) (Some id) [] []) [].

(** A selector parser that knows the two selectors of the example. *)
Definition css_compile (s : string) : option selector :=
  if String.eqb s "section#balance-sheet" then Some (by_id "section" "balance-sheet")
  else if String.eqb s "div#balance-sheet" then Some (by_id "div" "balance-sheet")
  else None.

Definition page_url : string :=
  "https://www.screener.in/company/KOTAKBANK/consolidated/".
Definition bare_url : string := "https://www.screener.in/company/BARE/".

(** Two networks that serve the same documents at the URLs of the
    example and differ elsewhere. *)
Definition net (elsewhere : reply) (url : string) : reply :=
  if String.eqb url page_url then Reply 200 page_markup
  else if String.eqb url bare_url then Reply 200 bare_markup
  else if String.eqb url (commentary_url "12345") then Reply 200 commentary_markup
  else elsewhere.

Definition net1 : string -> reply := net NoReply.
Definition net2 : string -> reply := net (Reply 404 "").

End Examples.

(* ------------------------------------------------------------------ *)
(** ** Documents of the specification's examples *)

Module SpecExamples.
Import Examples.

(** A table whose first body row is blank. *)
Definition peers_like_table : tag :=
  detached "table" ["data-table"]
    [el "tbody" []
       [el "tr" [] [el "td" [] [txt "  "]; el "td" [] []];
        el "tr" [] [el "td" [] [txt "1."]; el "td" [] [txt " HDFC Bank "]]]].

(** One group table headed "Compounded Sales Growth". *)
Definition sales_growth_section : tag :=
  detached "div" []
    [el "table" ["ranges-table"]
       [el "tbody" []
          [el "tr" [] [el "th" [] [txt "Compounded Sales Growth"]];
           el "tr" [] [el "td" [] [txt "10 Years:"]; el "td" [] [txt "17%"]];
           el "tr" [] [el "td" [] [txt "5 Years:"]; el "td" [] [txt "14%"]]]]].

(** A benchmark table and, after it, the peer table. *)
Definition peers_section : tag :=
  detached "section" []
    [el "table" ["data-table"]
       [el "tbody" [] [el "tr" [] [el "td" [] [txt "BSE Sensex"]]]];
     el "table" peer_classes
       [el "thead" [] [el "tr" [] [el "th" [] [txt "S.No."]; el "th" [] [txt "Name"]]];
        el "tbody" [] [el "tr" [] [el "td" [] [txt "1."]; el "td" [] [txt "HDFC Bank"]]];
        el "tfoot" [] [el "tr" [] [el "td" [] []; el "td" [] [txt "Median: 29 Co."]]]]].

End SpecExamples.

(* ------------------------------------------------------------------ *)
(** ** The driver *)

(** A character of [[a-zA-Z0-9]]. *)
Definition isalnum (c : ascii) : bool :=
  let n := nat_of_ascii c in
  ((48 <=? n) && (n <=? 57)) || ((65 <=? n) && (n <=? 90))
  || ((97 <=? n) && (n <=? 122)).

(** [re.sub(r"[^a-zA-Z0-9]+", "_", s)]: every maximal run of other
    characters becomes one underscore.  [in_run] tells that the character
    before belongs to the run being replaced. *)
Fixpoint sub_non_alnum (in_run : bool) (s : string) : string :=
  match s with
  | EmptyString => EmptyString
  | String c r =>
      if isalnum c then String c (sub_non_alnum false r)
      else if in_run then sub_non_alnum true r
      else String "_" (sub_non_alnum true r)
  end.

(** [safe_company_name] *)
Definition safe_company_name (company_name : string) : string :=
  sub_non_alnum false company_name.

(** [filename] *)
Definition output_filename (company_name : string) : string :=
  String.append "screener_cleaned_data_"
    (String.append (safe_company_name company_name) "_with_growth_tables.json").

(** The characters of a string that satisfy a test, in order. *)
Fixpoint keep_chars (p : ascii -> bool) (s : string) : string :=
  match s with
  | EmptyString => EmptyString
  | String c r => if p c then String c (keep_chars p r) else keep_chars p r
  end.

(* ------------------------------------------------------------------ *)
(** ** Further notions the statements use *)

(** The keys of a returned mapping. *)
Definition vkeys (v : value) : list string :=
  match v with
  | VDict d => PyDict.keys d
  | _ => []
  end.

(** The entry the loop over [#top-ratios > li] makes of an item. *)
Definition ratio_entry (r : tag) : option value :=
  match select_one sel_name r, select_one sel_value r with
  | Some name, Some val =>
      Some (VDict [("ratio_name", VStr (text_strip name));
                   ("ratio_value", VStr (text_strip val))])
  | _, _ => None
  end.

Definition opt_list {A : Type} (o : option A) : list A :=
  match o with
  | Some a => [a]
  | None => []
  end.

(** The rows a [tbody] or [tfoot] of the peer table offers. *)
Definition part_rows (part : selector) (table : tag) : list tag :=
  match select_one part table with
  | Some p => select sel_tr p
  | None => []
  end.

(** The heading texts of the heading rows of the tables, in order. *)
Definition row_headings (rows : list tag) : list string :=
  flat_map (fun r => opt_list (heading_of r)) rows.
Definition all_headings (tables : list (list tag)) : list string :=
  flat_map row_headings tables.

Definition no_trailing_colon (l : string) : Prop :=
  PyStr.last_char l <> Some ":"%char.

(** A non-empty string of decimal digits. *)
Definition is_digits (d : string) : Prop :=
  PyStr.truthy d = true /\ PyStr.all_chars isdigit d = true.

(** The labels of the navigation links of a page. *)
Definition page_labels (soup : tag) : list string :=
  match select_one sel_sub_nav soup with
  | Some sub_nav => nav_labels (find_all_with_attr "a" "href" sub_nav)
  | None => []
  end.

(** The label and the section id the loop over the navigation links
    works with for a link; [None] for a link it passes over. *)
Definition link_target (link : tag) : option (string * string) :=
  match attr "href" link with
  | None => None
  | Some href =>
      if negb (PyStr.startswith "#" href) then None
      else
        let section_id := PyStr.lstrip_hash href in
        if negb (PyStr.truthy section_id) then None
        else
          let t := text_strip link in
          Some (if PyStr.truthy t then t else section_id, section_id)
  end.

(** What the loop stores for a section it found. *)
Definition section_entry (link_label section_id : string) (section_tag : tag)
  : value :=
  match parser_for link_label section_id with
  | Some parser_func => run_parser parser_func section_tag
  | None => no_parser_info
  end.

(** A character a file name may hold here. *)
Definition filename_char (c : ascii) : bool :=
  isalnum c || Ascii.eqb c "_" || Ascii.eqb c ".".

(** The navigation links of a page. *)
Definition page_labels_links (soup : tag) : list tag :=
  match select_one sel_sub_nav soup with
  | Some sub_nav => find_all_with_attr "a" "href" sub_nav
  | None => []
  end.

Module MoreExamples.
(** The style block of the example page, as the page holds it. *)
Definition page_style_tag : tag :=
  hd (Examples.detached "style" [] [])
     (find_all ["style"] (soup_of Examples.page_nodes)).

(** The navigation link of the example page and the section it names. *)
Definition page_link : tag :=
  hd (Examples.detached "a" [] [])
     (page_labels_links (soup_of Examples.page_nodes)).
Definition page_section : tag :=
  hd (Examples.detached "section" [] [])
     (select (Examples.by_id "section" "balance-sheet") (soup_of Examples.page_nodes)).

(** A network on which the commentary document is missing. *)
Definition net_no_commentary (url : string) : reply :=
  if String.eqb url Examples.page_url then Reply 200 Examples.page_markup
  else Reply 404 "".
End MoreExamples.

(** The test a type selector written in lower case makes of an element. *)
Definition named (n : string) (d : tag) : bool :=
  String.eqb n (PyStr.lower (tg_name d)).

(** A header text read off a [th] element that stands inside a table. *)
Definition header_inside (table : tag) (h : string) : Prop :=
  exists cell,
    In cell (descendants table) /\ named "th" cell = true /\ h = text_strip cell.

(** A row of texts read off the cells of a [tr] element that stands
    inside a table; the cells stand inside the table too. *)
Definition row_inside (table : tag) (row : list string) : Prop :=
  exists tr,
    In tr (descendants table) /\ named "tr" tr = true
    /\ row = map text_strip (find_all ["th"; "td"] tr)
    /\ Forall (fun cell => In cell (descendants table)) (find_all ["th"; "td"] tr).

Module TableExamples.
Import Examples.

(** A table with two bodies, each with one row that is not blank. *)
Definition two_bodies_table : tag :=
  detached "table" ["data-table"]
    [el "tbody" [] [el "tr" [] [el "td" [] [txt "Sales"]; el "td" [] [txt "100"]]];
     el "tbody" [] [el "tr" [] [el "td" [] [txt "Expenses"]; el "td" [] [txt "60"]]]].

(** A table whose row stands directly under the table element. *)
Definition no_body_table : tag :=
  detached "table" ["data-table"]
    [el "tr" [] [el "td" [] [txt "Sales"]; el "td" [] [txt "100"]]].

End TableExamples.

(* ------------------------------------------------------------------ *)
(** * Properties *)

(** ** The model on the examples of the specification *)

Example table_example :
  parse_table (Some SpecExamples.peers_like_table)
  = VDict [("headers", VList []);
           ("rows", VList [VList [VStr "1."; VStr "HDFC Bank"]])].
Proof. reflexivity. Qed.

Example growth_example :
  parse_growth_tables SpecExamples.sales_growth_section
  = VDict [("Compounded Sales Growth",
            VDict [("10 Years", VStr "17%"); ("5 Years", VStr "14%")])].
Proof. reflexivity. Qed.

Example commentary_example :
  parse_commentary_html Examples.html_parser Examples.commentary_markup
  = [("About", "Kotak Mahindra Bank is a banking company.")].
Proof. reflexivity. Qed.

Example peers_example :
  parse_peers_section SpecExamples.peers_section
  = VDict [("peer_comparison",
            VDict [("headers", VList [VStr "S.No."; VStr "Name"]);
                   ("rows", VList [VList [VStr "1."; VStr "HDFC Bank"]]);
                   ("footer", VList [VList [VStr ""; VStr "Median: 29 Co."]])])].
Proof. reflexivity. Qed.

Example end_to_end_example :
  scrape_screener_data Examples.html_parser Examples.css_compile Examples.net1
                       Examples.page_url
  = ([Examples.page_url; commentary_url "12345"],
     Returned
       [("company_name", VStr "Kotak Mahindra Bank Ltd");
        ("company_id", VStr "12345");
        ("Balance Sheet",
         VDict [("balance_sheet",
                 VDict [("headers", VList [VStr ""; VStr "Mar 2024"]);
                        ("rows", VList [VList [VStr "Equity Capital"; VStr "994"]])])]);
        ("commentary",
         VDict [("About", VStr "Kotak Mahindra Bank is a banking company.")])]).
Proof. vm_compute. reflexivity. Qed.

(** ** The tree *)

Lemma descendants_of_elem (ctx : list frame) (nm : string) (cl : list string)
    (at_ : list (string * string)) (ch : list node) :
  descendants_of ctx (Elem nm cl at_ ch)
  = Tag ctx nm cl at_ ch :: descendants (Tag ctx nm cl at_ ch).
Proof.
  unfold descendants. simpl. f_equal.
  generalize (@nil node) as before.
  induction ch as [|c r IH]; intros before; [reflexivity|].
  simpl. f_equal. apply IH.
Qed.

Lemma descendants_cons (t : tag) (c : node) (r : list node) :
  tg_children t = c :: r ->
  descendants t
  = descendants_of
      (Frame (tg_name t) (tg_classes t) (tg_attrs t) [] r :: tg_ctx t) c
    ++ walk_children (tg_ctx t) (tg_name t) (tg_classes t) (tg_attrs t) [c] r.
Proof. unfold descendants. intros ->. reflexivity. Qed.

(** ** Strings *)

Module PyStrFacts.
Import PyStr.

Lemma truthy_false_iff (s : string) : truthy s = false <-> s = "".
Proof. destruct s; simpl; split; congruence. Qed.

Lemma truthy_true_iff (s : string) : truthy s = true <-> s <> "".
Proof. destruct s; simpl; split; congruence. Qed.

Lemma lstrip_by_all (p : ascii -> bool) (s : string) :
  truthy (lstrip_by p s) = negb (all_chars p s).
Proof.
  induction s as [|c r IH]; simpl; [reflexivity|].
  destruct (p c); simpl; [exact IH | reflexivity].
Qed.

Lemma rstrip_by_all (p : ascii -> bool) (s : string) :
  truthy (rstrip_by p s) = negb (all_chars p s).
Proof.
  induction s as [|c r IH]; simpl; [reflexivity|].
  destruct (rstrip_by p r) eqn:E; simpl in *.
  - destruct (all_chars p r); [|discriminate].
    destruct (p c); reflexivity.
  - destruct (all_chars p r); [discriminate|].
    rewrite andb_false_r. reflexivity.
Qed.

Lemma all_chars_rstrip (p : ascii -> bool) (s : string) :
  all_chars p (rstrip_by p s) = all_chars p s.
Proof.
  induction s as [|c r IH]; simpl; [reflexivity|].
  destruct (rstrip_by p r) eqn:E.
  - assert (H : all_chars p r = true).
    { pose proof (rstrip_by_all p r) as H. rewrite E in H. simpl in H.
      destruct (all_chars p r); [reflexivity | discriminate]. }
    rewrite H, andb_true_r. destruct (p c) eqn:Ec; simpl; [reflexivity|].
    rewrite Ec. reflexivity.
  - simpl in *. rewrite IH. reflexivity.
Qed.

(** Trimming leaves something exactly when a character is not a space. *)
Lemma strip_truthy (s : string) :
  truthy (strip s) = negb (all_chars isspace s).
Proof.
  unfold strip. rewrite lstrip_by_all, all_chars_rstrip. reflexivity.
Qed.

Lemma all_chars_append (p : ascii -> bool) (a b : string) :
  all_chars p (a ++ b)%string = all_chars p a && all_chars p b.
Proof.
  induction a as [|c r IH]; simpl; [reflexivity|].
  rewrite IH, andb_assoc. reflexivity.
Qed.

Lemma truthy_append (a b : string) :
  truthy (a ++ b)%string = truthy a || truthy b.
Proof. destruct a; reflexivity. Qed.

Lemma concat_cons2 (sep a b : string) (l : list string) :
  String.concat sep (a :: b :: l)
  = (a ++ sep ++ String.concat sep (b :: l))%string.
Proof. reflexivity. Qed.

Lemma all_chars_concat_empty (p : ascii -> bool) (l : list string) :
  all_chars p (String.concat "" l) = forallb (all_chars p) l.
Proof.
  induction l as [|a l IH]; [reflexivity|].
  destruct l as [|b l].
  - simpl. rewrite andb_true_r. reflexivity.
  - rewrite concat_cons2, !all_chars_append, IH. reflexivity.
Qed.

Lemma truthy_concat (sep : string) (l : list string) :
  Forall (fun s => truthy s = true) l ->
  truthy (String.concat sep l) = negb (Nat.eqb (List.length l) 0).
Proof.
  intros H. destruct H as [|a l Ha Hl]; [reflexivity|].
  destruct l as [|b l]; simpl; [exact Ha|].
  rewrite truthy_append, Ha. reflexivity.
Qed.

End PyStrFacts.

(** ** Text extraction *)

Lemma all_strings_strip (t : tag) : all_strings true t = pieces t.
Proof.
  unfold all_strings, pieces, raw_strings.
  induction (strings_of_list (tg_children t)) as [|[k s] l IH]; [reflexivity|].
  simpl. destruct (interesting (tg_name t) k); simpl; [|exact IH].
  destruct (PyStr.truthy (PyStr.strip s)); simpl; rewrite IH; reflexivity.
Qed.

Lemma all_strings_raw (t : tag) : all_strings false t = raw_strings t.
Proof.
  unfold all_strings, raw_strings.
  induction (strings_of_list (tg_children t)) as [|[k s] l IH]; [reflexivity|].
  simpl. destruct (interesting (tg_name t) k); simpl; rewrite IH; reflexivity.
Qed.

Lemma pieces_truthy (t : tag) : Forall (fun s => PyStr.truthy s = true) (pieces t).
Proof.
  unfold pieces. apply Forall_forall. intros s Hs.
  apply filter_In in Hs. tauto.
Qed.

Lemma filter_length_zero {A : Type} (f : A -> bool) (l : list A) :
  Nat.eqb (List.length (filter f l)) 0 = negb (existsb f l).
Proof.
  induction l as [|a l IH]; [reflexivity|].
  simpl. destruct (f a); simpl; [reflexivity | exact IH].
Qed.

(** A cell's trimmed text is empty exactly when the cell is blank. *)
Lemma text_strip_truthy (cell : tag) :
  PyStr.truthy (text_strip cell) = negb (cell_blank cell).
Proof.
  unfold text_strip, cell_blank, text, get_text, PyStr.join.
  rewrite all_strings_strip, all_strings_raw.
  rewrite (PyStrFacts.truthy_concat _ (pieces_truthy cell)).
  rewrite PyStrFacts.strip_truthy, PyStrFacts.all_chars_concat_empty.
  unfold pieces. rewrite filter_length_zero, !negb_involutive.
  induction (raw_strings cell) as [|s l IH]; [reflexivity|].
  simpl. rewrite IH, PyStrFacts.strip_truthy.
  destruct (PyStr.all_chars PyStr.isspace s); reflexivity.
Qed.

(** ** Tables *)

Lemma any_item_row_texts (row : tag) :
  any_item (row_texts row) = row_nonblank row.
Proof.
  unfold any_item, row_texts, row_nonblank.
  induction (find_all ["th"; "td"] row) as [|c l IH]; [reflexivity|].
  simpl. rewrite IH, text_strip_truthy. reflexivity.
Qed.

Lemma collect_rows_filter (rows : list tag) (acc : list (list string)) :
  collect_rows rows acc = acc ++ map row_texts (filter row_nonblank rows).
Proof.
  revert acc. induction rows as [|row rest IH]; intros acc; simpl.
  - rewrite app_nil_r. reflexivity.
  - rewrite any_item_row_texts. destruct (row_nonblank row); simpl.
    + rewrite IH, <- app_assoc. reflexivity.
    + apply IH.
Qed.

Lemma row_nonblank_iff (row : tag) :
  row_nonblank row = true <->
  exists cell, In cell (find_all ["th"; "td"] row) /\ text_strip cell <> "".
Proof.
  unfold row_nonblank. rewrite existsb_exists.
  split; intros [c [Hin Hc]]; exists c; split; try exact Hin.
  - rewrite <- text_strip_truthy in Hc. apply PyStrFacts.truthy_true_iff. exact Hc.
  - rewrite <- text_strip_truthy. apply PyStrFacts.truthy_true_iff. exact Hc.
Qed.

(** C1 (as the code has it): with no table element, [parse_table] returns
    the empty mapping, without a [headers] or a [rows] key. *)
Theorem C1_parse_table_absent :
  parse_table None = VDict []
  /\ vget "headers" (parse_table None) = None
  /\ vget "rows" (parse_table None) = None.
Proof. repeat split. Qed.

(** C1 as stated fails: the value for an absent table is not the empty
    Table [{headers: [], rows: []}]. *)
Lemma C1_absent_table_is_not_empty_table :
  parse_table None <> VDict [("headers", vstrs []); ("rows", vrows [])].
Proof. discriminate. Qed.

(** ** Dicts *)

Module PyDictFacts.
Section Facts.
Variable V : Type.
Implicit Types (d : PyDict.t V) (k : string) (v : V).

Lemma get_set_same d k v : PyDict.get k (PyDict.set k v d) = Some v.
Proof.
  induction d as [|[k' v'] r IH]; simpl.
  - rewrite String.eqb_refl. reflexivity.
  - destruct (String.eqb k k') eqn:E; simpl; rewrite E; [reflexivity | exact IH].
Qed.

Lemma get_set_other d k k' v :
  k' <> k -> PyDict.get k' (PyDict.set k v d) = PyDict.get k' d.
Proof.
  intros Hne. induction d as [|[k0 v0] r IH]; simpl.
  - apply String.eqb_neq in Hne. rewrite Hne. reflexivity.
  - destruct (String.eqb k k0) eqn:E; simpl.
    + apply String.eqb_eq in E. subst k0.
      apply String.eqb_neq in Hne. rewrite Hne. reflexivity.
    + destruct (String.eqb k' k0); [reflexivity | exact IH].
Qed.

Lemma get_In d k v : PyDict.get k d = Some v -> In (k, v) d.
Proof.
  induction d as [|[k' v'] r IH]; simpl; [discriminate|].
  destruct (String.eqb k k') eqn:E.
  - apply String.eqb_eq in E. intros [= ->]. left. congruence.
  - intros H. right. apply IH, H.
Qed.

Lemma get_None_keys d k : PyDict.get k d = None <-> ~ In k (PyDict.keys d).
Proof.
  unfold PyDict.keys.
  induction d as [|[k' v'] r IH]; simpl; [tauto|].
  destruct (String.eqb k k') eqn:E.
  - apply String.eqb_eq in E. split; [discriminate | intros H; exfalso; apply H; left; congruence].
  - apply String.eqb_neq in E. rewrite IH. split.
    + intros H [H1|H1]; [congruence | exact (H H1)].
    + intros H H1. apply H. right. exact H1.
Qed.

(** Values of an updated dict: the new one or old ones. *)
Lemma set_values d k v x :
  In x (map snd (PyDict.set k v d)) -> x = v \/ In x (map snd d).
Proof.
  induction d as [|[k' v'] r IH]; simpl.
  - intros [H|[]]. left. symmetry. exact H.
  - destruct (String.eqb k k'); simpl; intros [H|H].
    + left. symmetry. exact H.
    + right. right. exact H.
    + right. left. exact H.
    + destruct (IH H) as [H1|H1]; [left | right; right]; exact H1.
Qed.

Lemma set_values_nodup d k v :
  NoDup (map snd d) -> ~ In v (map snd d) -> NoDup (map snd (PyDict.set k v d)).
Proof.
  induction d as [|[k' v'] r IH]; simpl; intros Hnd Hni.
  - constructor; [tauto | constructor].
  - inversion Hnd as [|? ? Hx Hr]; subst.
    destruct (String.eqb k k'); simpl.
    + constructor; [tauto | exact Hr].
    + constructor.
      * intros Hin. apply set_values in Hin. destruct Hin as [->|Hin]; tauto.
      * apply IH; tauto.
Qed.

End Facts.
End PyDictFacts.

(** ** The store of the growth tables *)

Module GrowthFacts.
Import Growth.

Lemma length_update (hp : store) (r : ref) (m : PyDict.t string) :
  List.length (update hp r m) = List.length hp.
Proof.
  revert r. induction hp as [|x t IH]; intros [|r]; simpl; auto.
Qed.

Lemma deref_update_same (hp : store) (r : ref) (m : PyDict.t string) :
  r < List.length hp -> deref (update hp r m) r = m.
Proof.
  unfold deref. revert r. induction hp as [|x t IH]; intros [|r]; simpl; intros H;
    try lia; auto.
  apply IH. lia.
Qed.

Lemma deref_update_other (hp : store) (r r' : ref) (m : PyDict.t string) :
  r' <> r -> deref (update hp r m) r' = deref hp r'.
Proof.
  unfold deref. revert r r'.
  induction hp as [|x t IH]; intros [|r] [|r']; simpl; intros H;
    try reflexivity; try congruence.
  apply IH. congruence.
Qed.

Lemma deref_app (hp extra : store) (r : ref) :
  r < List.length hp -> deref (hp ++ extra) r = deref hp r.
Proof. intros H. unfold deref. apply app_nth1. exact H. Qed.

Lemma get_view_of (hp : store) (d : PyDict.t ref) (k : string) :
  PyDict.get k (view_of hp d) = option_map (deref hp) (PyDict.get k d).
Proof.
  induction d as [|[k' r] t IH]; simpl; [reflexivity|].
  destruct (String.eqb k k'); [reflexivity | exact IH].
Qed.

Lemma view_of_app (hp extra : store) (d : PyDict.t ref) :
  Forall (fun r => r < List.length hp) (map snd d) ->
  view_of (hp ++ extra) d = view_of hp d.
Proof.
  induction d as [|[k r] t IH]; simpl; intros H; [reflexivity|].
  inversion H; subst. rewrite deref_app by assumption. f_equal. auto.
Qed.

Lemma view_of_update_other (hp : store) (r : ref) (m : PyDict.t string)
    (d : PyDict.t ref) :
  ~ In r (map snd d) -> view_of (update hp r m) d = view_of hp d.
Proof.
  induction d as [|[k r'] t IH]; simpl; intros H; [reflexivity|].
  rewrite deref_update_other by (intros ->; apply H; left; reflexivity).
  f_equal. apply IH. intros Hin. apply H. right. exact Hin.
Qed.

(** Writing through a reference changes the one entry of [data] that
    holds it. *)
Lemma view_of_update (hp : store) (d : PyDict.t ref) (k : string) (r : ref)
    (m : PyDict.t string) :
  NoDup (map snd d) ->
  Forall (fun x => x < List.length hp) (map snd d) ->
  PyDict.get k d = Some r ->
  view_of (update hp r m) d = PyDict.set k m (view_of hp d).
Proof.
  induction d as [|[k' r'] t IH]; simpl; intros Hnd Hb Hget; [discriminate|].
  inversion Hnd as [|? ? Hni Hnd']; subst. inversion Hb as [|? ? Hlt Hb']; subst.
  destruct (String.eqb k k') eqn:E.
  - injection Hget as ->.
    rewrite deref_update_same by assumption.
    rewrite view_of_update_other by assumption. reflexivity.
  - assert (Hin : In r (map snd t)).
    { apply PyDictFacts.get_In in Hget. apply (in_map snd) in Hget. exact Hget. }
    rewrite deref_update_other by (intros ->; tauto).
    f_equal. apply IH; assumption.
Qed.

(** A heading row gives its heading a fresh, empty inner dict. *)
Lemma view_of_set_fresh (hp : store) (d : PyDict.t ref) (k : string) :
  Forall (fun x => x < List.length hp) (map snd d) ->
  view_of (hp ++ [[]]) (PyDict.set k (List.length hp) d)
  = PyDict.set k [] (view_of hp d).
Proof.
  assert (Hnew : deref (hp ++ [[]]) (List.length hp) = []).
  { unfold deref. rewrite app_nth2 by lia. rewrite Nat.sub_diag. reflexivity. }
  induction d as [|[k' r'] t IH]; simpl; intros Hb.
  - rewrite Hnew. reflexivity.
  - inversion Hb as [|? ? Hlt Hb']; subst.
    destruct (String.eqb k k'); simpl.
    + rewrite Hnew, view_of_app by assumption. reflexivity.
    + rewrite deref_app by assumption. f_equal. apply IH. assumption.
Qed.

Lemma wf_init : growth_wf init.
Proof.
  constructor; simpl; [constructor | constructor | discriminate].
Qed.

Lemma bound_weaken (n m : nat) (l : list ref) :
  n <= m -> Forall (fun r => r < n) l -> Forall (fun r => r < m) l.
Proof.
  intros Hle H. eapply Forall_impl; [|exact H]. simpl. intros. lia.
Qed.

Lemma fresh_not_in (n : nat) (l : list ref) :
  Forall (fun r => r < n) l -> ~ In n l.
Proof.
  intros H Hin. rewrite Forall_forall in H. specialize (H _ Hin). lia.
Qed.

Lemma wf_growth_row (st : state) (row : tag) :
  growth_wf st -> growth_wf (growth_row st row).
Proof.
  intros [Hnd Hb Hal]. unfold growth_row.
  destruct (find "th" row) as [th|].
  - unfold alloc. constructor; simpl.
    + apply PyDictFacts.set_values_nodup; [exact Hnd | apply fresh_not_in, Hb].
    + apply Forall_forall. intros x Hx. rewrite length_app. simpl.
      apply PyDictFacts.set_values in Hx. destruct Hx as [->|Hx]; [lia|].
      rewrite Forall_forall in Hb. specialize (Hb _ Hx). lia.
    + intros h [= <-]. rewrite PyDictFacts.get_set_same. reflexivity.
  - destruct (find_all ["td"] row) as [|td0 [|td1 [|? ?]]];
      try (constructor; assumption).
    destruct (heading_text st) eqn:Eh; [|constructor; try assumption; congruence].
    constructor; simpl.
    + exact Hnd.
    + rewrite length_update. exact Hb.
    + exact Hal.
Qed.

Lemma wf_growth_rows (rows : list tag) (st : state) :
  growth_wf st -> growth_wf (growth_rows st rows).
Proof.
  unfold growth_rows. revert st.
  induction rows as [|r rows IH]; simpl; intros st H; [exact H|].
  apply IH, wf_growth_row, H.
Qed.

Lemma growth_table_eq (st : state) (rows : list tag) :
  growth_table st rows = growth_rows (table_start st) rows.
Proof. reflexivity. Qed.

Lemma wf_table_start (st : state) : growth_wf st -> growth_wf (table_start st).
Proof.
  intros [Hnd Hb Hal]. constructor; simpl.
  - exact Hnd.
  - rewrite length_app. simpl. eapply bound_weaken; [|exact Hb]. lia.
  - discriminate.
Qed.

Lemma view_table_start (st : state) :
  growth_wf st -> view (table_start st) = view st.
Proof. intros [Hnd Hb Hal]. unfold view. simpl. apply view_of_app, Hb. Qed.

Lemma wf_growth_table (st : state) (rows : list tag) :
  growth_wf st -> growth_wf (growth_table st rows).
Proof.
  intros H. rewrite growth_table_eq. apply wf_growth_rows, wf_table_start, H.
Qed.

Lemma wf_growth_tables (tables : list (list tag)) (st : state) :
  growth_wf st -> growth_wf (growth_tables st tables).
Proof.
  unfold growth_tables. revert st.
  induction tables as [|t ts IH]; simpl; intros st H; [exact H|].
  apply IH, wf_growth_table, H.
Qed.

End GrowthFacts.

(** ** The growth tables *)

Lemma rstrip_by_last (p : ascii -> bool) (s : string) (c : ascii) :
  PyStr.last_char (PyStr.rstrip_by p s) = Some c -> p c = false.
Proof.
  induction s as [|a r IH]; simpl; [discriminate|].
  destruct (PyStr.rstrip_by p r) as [|b r'] eqn:E.
  - destruct (p a) eqn:Ea; simpl; [discriminate|].
    intros [= <-]. exact Ea.
  - intros H. apply IH. exact H.
Qed.

Lemma rstrip_by_suffix (p : ascii -> bool) (s : string) :
  exists t, s = (PyStr.rstrip_by p s ++ t)%string /\ PyStr.all_chars p t = true.
Proof.
  induction s as [|a r [t [Ht Hall]]]; simpl.
  - exists "". split; reflexivity.
  - destruct (PyStr.rstrip_by p r) as [|b r'] eqn:E.
    + destruct (p a) eqn:Ea.
      * exists (String a t). simpl in *. rewrite Ea, Hall. split; [congruence | reflexivity].
      * exists t. simpl in *. split; [congruence | exact Hall].
    + exists t. split; [|exact Hall]. simpl in *. congruence.
Qed.

Section GrowthSteps.
Import Growth.
Variable st : state.
Hypothesis Hwf : growth_wf st.

(** A heading row: the heading's mapping becomes empty, where it stood
    or at the end. *)
Lemma view_row_heading (row th : tag) :
  find "th" row = Some th ->
  view (growth_row st row) = PyDict.set (text_strip th) [] (view st)
  /\ heading_text (growth_row st row) = Some (text_strip th).
Proof.
  intros Hth. unfold growth_row. rewrite Hth. unfold alloc. simpl.
  split; [|reflexivity].
  unfold view. simpl. apply GrowthFacts.view_of_set_fresh.
  apply (wf_bound Hwf).
Qed.

(** A row of two data cells under a heading. *)
Lemma view_row_entry (row td0 td1 : tag) (h : string) :
  find "th" row = None ->
  find_all ["td"] row = [td0; td1] ->
  heading_text st = Some h ->
  view (growth_row st row)
  = PyDict.set h (PyDict.set (PyStr.rstrip_colon (text_strip td0)) (text_strip td1)
                             (deref (heap st) (row_data st)))
               (view st)
  /\ PyDict.get h (view st) = Some (deref (heap st) (row_data st))
  /\ heading_text (growth_row st row) = Some h.
Proof.
  intros Hth Htd Hh. unfold growth_row. rewrite Hth, Htd, Hh. simpl.
  pose proof (wf_alias Hwf Hh) as Hal.
  split; [|split].
  - unfold view. simpl.
    apply GrowthFacts.view_of_update;
      [apply (wf_distinct Hwf) | apply (wf_bound Hwf) | exact Hal].
  - unfold view. rewrite GrowthFacts.get_view_of, Hal. reflexivity.
  - reflexivity.
Qed.

End GrowthSteps.

(** Rows without a header cell change nothing while no heading is
    active. *)
Lemma growth_rows_no_heading (rows : list tag) (st : Growth.state) :
  Growth.heading_text st = None ->
  Forall (fun r => find "th" r = None) rows ->
  Growth.growth_rows st rows = st.
Proof.
  unfold Growth.growth_rows. intros Hh H. induction H as [|r rows Hr _ IH]; [reflexivity|].
  simpl. assert (E : Growth.growth_row st r = st).
  { unfold Growth.growth_row. rewrite Hr, Hh.
    destruct (find_all ["td"] r) as [|? [|? [|? ?]]]; reflexivity. }
  rewrite E. exact IH.
Qed.

Lemma parse_growth_tables_eq (section_soup : tag) :
  parse_growth_tables section_soup
  = Growth.export
      (Growth.view (Growth.growth_tables Growth.init (Growth.tables_of section_soup))).
Proof.
  unfold parse_growth_tables, Growth.tables_of.
  destruct (select sel_ranges_table section_soup); reflexivity.
Qed.

(** C3 (as the code has it): for every state the loops reach and every
    row, an entry label -> value is recorded under the active heading
    exactly when the row has no header cell, has exactly two data cells
    and a heading row came before it in its table; the label is the first
    cell's text without its trailing colons.  A row with a header cell
    records no entry (it starts a heading with an empty mapping), any
    other row leaves everything as it was, and so do the rows of a table
    that come before its first heading row. *)
Theorem C3_growth_entry_recorded (st : Growth.state) (row : tag) :
  growth_wf st ->
  match find "th" row, find_all ["td"] row, Growth.heading_text st with
  | None, [td0; td1], Some h =>
      let label := PyStr.rstrip_colon (text_strip td0) in
      Growth.view (Growth.growth_row st row)
      = nested_set h label (text_strip td1) (Growth.view st)
      /\ PyDict.get h (Growth.view st) <> None
      /\ (forall c, PyStr.last_char label = Some c -> c <> ":"%char)
      /\ (exists colons, text_strip td0 = (label ++ colons)%string
                         /\ PyStr.all_chars (PyStr.is_char ":") colons = true)
  | None, _, _ => Growth.growth_row st row = st
  | Some th, _, _ =>
      Growth.view (Growth.growth_row st row)
      = PyDict.set (text_strip th) [] (Growth.view st)
  end
  /\ (forall rows, Forall (fun r => find "th" r = None) rows ->
                   Growth.view (Growth.growth_table st rows) = Growth.view st).
Proof.
  intros Hwf. split.
  - destruct (find "th" row) as [th|] eqn:Hth.
    + apply (@view_row_heading st Hwf row th Hth).
    + destruct (find_all ["td"] row) as [|td0 [|td1 [|? ?]]] eqn:Htd;
        try (unfold Growth.growth_row; rewrite Hth, Htd; reflexivity).
      destruct (Growth.heading_text st) as [h|] eqn:Hh;
        [|unfold Growth.growth_row; rewrite Hth, Htd, Hh; reflexivity].
      destruct (@view_row_entry st Hwf row td0 td1 h Hth Htd Hh) as [Hv [Hg _]].
      split; [|split; [|split]].
      * unfold nested_set. rewrite Hg. exact Hv.
      * rewrite Hg. discriminate.
      * intros c Hc ->. apply rstrip_by_last in Hc. discriminate.
      * apply rstrip_by_suffix.
  - intros rows Hrows. rewrite GrowthFacts.growth_table_eq.
    rewrite growth_rows_no_heading; [|reflexivity|exact Hrows].
    apply GrowthFacts.view_table_start, Hwf.
Qed.

(** Two states that have the same active heading and the same mapping for
    [h]: a row keeps them so. *)
Lemma agree_row (h : string) (s1 s2 : Growth.state) (row : tag) :
  growth_wf s1 -> growth_wf s2 ->
  Growth.heading_text s1 = Growth.heading_text s2 ->
  PyDict.get h (Growth.view s1) = PyDict.get h (Growth.view s2) ->
  Growth.heading_text (Growth.growth_row s1 row)
  = Growth.heading_text (Growth.growth_row s2 row)
  /\ PyDict.get h (Growth.view (Growth.growth_row s1 row))
     = PyDict.get h (Growth.view (Growth.growth_row s2 row)).
Proof.
  intros W1 W2 Hh Hg.
  destruct (find "th" row) as [th|] eqn:Hth.
  - destruct (@view_row_heading s1 W1 row th Hth) as [V1 H1].
    destruct (@view_row_heading s2 W2 row th Hth) as [V2 H2].
    rewrite V1, V2, H1, H2. split; [reflexivity|].
    destruct (String.eqb h (text_strip th)) eqn:E.
    + apply String.eqb_eq in E. subst h.
      rewrite !PyDictFacts.get_set_same. reflexivity.
    + apply String.eqb_neq in E.
      rewrite !PyDictFacts.get_set_other by exact E. exact Hg.
  - destruct (find_all ["td"] row) as [|td0 [|td1 [|? ?]]] eqn:Htd;
      try (unfold Growth.growth_row; rewrite Hth, Htd; split; assumption).
    destruct (Growth.heading_text s1) as [h'|] eqn:Hh1.
    + symmetry in Hh.
      destruct (@view_row_entry s1 W1 row td0 td1 h' Hth Htd Hh1) as [V1 [G1 H1]].
      destruct (@view_row_entry s2 W2 row td0 td1 h' Hth Htd Hh) as [V2 [G2 H2]].
      rewrite V1, V2, H1, H2. split; [reflexivity|].
      destruct (String.eqb h h') eqn:E.
      * apply String.eqb_eq in E. subst h'.
        rewrite !PyDictFacts.get_set_same.
        rewrite G1, G2 in Hg. injection Hg as ->. reflexivity.
      * apply String.eqb_neq in E.
        rewrite !PyDictFacts.get_set_other by exact E. exact Hg.
    + unfold Growth.growth_row. rewrite Hth, Htd, Hh1, <- Hh. split; [|exact Hg].
      rewrite Hh1, <- Hh. reflexivity.
Qed.

Lemma agree_rows (h : string) (rows : list tag) (s1 s2 : Growth.state) :
  growth_wf s1 -> growth_wf s2 ->
  Growth.heading_text s1 = Growth.heading_text s2 ->
  PyDict.get h (Growth.view s1) = PyDict.get h (Growth.view s2) ->
  PyDict.get h (Growth.view (Growth.growth_rows s1 rows))
  = PyDict.get h (Growth.view (Growth.growth_rows s2 rows)).
Proof.
  unfold Growth.growth_rows. revert s1 s2.
  induction rows as [|r rows IH]; simpl; intros s1 s2 W1 W2 Hh Hg; [exact Hg|].
  destruct (agree_row h r W1 W2 Hh Hg) as [Hh' Hg'].
  apply IH; auto using GrowthFacts.wf_growth_row.
Qed.

Lemma agree_tables (h : string) (tables : list (list tag)) (s1 s2 : Growth.state) :
  growth_wf s1 -> growth_wf s2 ->
  PyDict.get h (Growth.view s1) = PyDict.get h (Growth.view s2) ->
  PyDict.get h (Growth.view (Growth.growth_tables s1 tables))
  = PyDict.get h (Growth.view (Growth.growth_tables s2 tables)).
Proof.
  unfold Growth.growth_tables. revert s1 s2.
  induction tables as [|t ts IH]; simpl; intros s1 s2 W1 W2 Hg; [exact Hg|].
  apply IH; try apply GrowthFacts.wf_growth_table; try assumption.
  rewrite !GrowthFacts.growth_table_eq.
  apply agree_rows; try apply GrowthFacts.wf_table_start; try assumption.
  - reflexivity.
  - rewrite !GrowthFacts.view_table_start by assumption. exact Hg.
Qed.

(** C10: a heading row re-initialises the mapping of its heading text to
    empty, also when that text was seen before, and what the rows and
    tables before the heading row recorded does not reach the heading's
    final mapping: it is the mapping of the run that starts at the heading
    row. *)
Theorem C10_heading_row_reinitialises
    (pre : list (list tag)) (rows_pre : list tag) (hrow : tag)
    (rows_post : list tag) (post : list (list tag)) (h : string) :
  heading_of hrow = Some h ->
  (forall st, growth_wf st ->
     Growth.view (Growth.growth_row st hrow) = PyDict.set h [] (Growth.view st)
     /\ PyDict.get h (Growth.view (Growth.growth_row st hrow)) = Some [])
  /\ PyDict.get h
       (Growth.view
          (Growth.growth_tables Growth.init
             (pre ++ (rows_pre ++ hrow :: rows_post) :: post)))
     = PyDict.get h
         (Growth.view
            (Growth.growth_tables Growth.init ((hrow :: rows_post) :: post))).
Proof.
  unfold heading_of. destruct (find "th" hrow) as [th|] eqn:Hth; [|discriminate].
  simpl. intros [= <-].
  assert (Hstep : forall st, growth_wf st ->
     Growth.view (Growth.growth_row st hrow)
     = PyDict.set (text_strip th) [] (Growth.view st)
     /\ PyDict.get (text_strip th) (Growth.view (Growth.growth_row st hrow)) = Some []
     /\ Growth.heading_text (Growth.growth_row st hrow) = Some (text_strip th)).
  { intros st W. destruct (@view_row_heading st W hrow th Hth) as [V H].
    rewrite V, PyDictFacts.get_set_same. auto. }
  split.
  - intros st W. destruct (Hstep st W) as [V [G _]]. auto.
  - unfold Growth.growth_tables. rewrite fold_left_app. simpl.
    fold (Growth.growth_tables Growth.init pre).
    set (s0 := Growth.growth_tables Growth.init pre).
    assert (W0 : growth_wf s0) by apply GrowthFacts.wf_growth_tables, GrowthFacts.wf_init.
    rewrite !GrowthFacts.growth_table_eq.
    unfold Growth.growth_rows. rewrite fold_left_app. simpl.
    fold (Growth.growth_rows (table_start s0) rows_pre).
    set (s1 := Growth.growth_rows (table_start s0) rows_pre).
    assert (W1 : growth_wf s1)
      by apply GrowthFacts.wf_growth_rows, GrowthFacts.wf_table_start, W0.
    assert (W2 : growth_wf (table_start Growth.init))
      by apply GrowthFacts.wf_table_start, GrowthFacts.wf_init.
    destruct (Hstep s1 W1) as [_ [G1 H1]].
    destruct (Hstep _ W2) as [_ [G2 H2]].
    apply (agree_tables (text_strip th) post).
    + apply (GrowthFacts.wf_growth_rows rows_post), GrowthFacts.wf_growth_row, W1.
    + apply (GrowthFacts.wf_growth_rows rows_post), GrowthFacts.wf_growth_row, W2.
    + apply agree_rows; try apply GrowthFacts.wf_growth_row; try assumption;
        congruence.
Qed.

(** ** Searching *)

Lemma hd_error_filter_Some {A : Type} (f : A -> bool) (l : list A) (x : A) :
  hd_error (filter f l) = Some x ->
  f x = true
  /\ exists before after,
       l = before ++ x :: after /\ Forall (fun y => f y = false) before.
Proof.
  induction l as [|a l IH]; simpl; [discriminate|].
  destruct (f a) eqn:E; simpl.
  - intros [= ->]. split; [exact E|]. exists [], l. split; [reflexivity | constructor].
  - intros H. destruct (IH H) as [Hx [b [c [-> Hb]]]]. split; [exact Hx|].
    exists (a :: b), c. split; [reflexivity | constructor; assumption].
Qed.

Lemma hd_error_filter_None {A : Type} (f : A -> bool) (l : list A) :
  hd_error (filter f l) = None -> forall x, In x l -> f x = false.
Proof.
  induction l as [|a l IH]; simpl; [tauto|].
  destruct (f a) eqn:E; simpl; [discriminate|].
  intros H x [<-|Hin]; [exact E | apply IH; assumption].
Qed.

Lemma has_class_In (c : string) (cl : list string) :
  has_class c cl = true <-> In c cl.
Proof.
  unfold has_class. rewrite existsb_exists. split.
  - intros [x [Hin Heq]]. apply String.eqb_eq in Heq. subst. exact Hin.
  - intros Hin. exists c. split; [exact Hin | apply String.eqb_refl].
Qed.

(** The peer-table selector accepts the tables that carry the five
    classes. *)
Lemma matches_peer_table (t : tag) :
  matches sel_peer_table t = true <-> is_peer_table t.
Proof.
  unfold matches, sel_peer_table, simple, ty_cls, match_compound, is_peer_table.
  cbn [sel_subject sel_left c_type c_id c_classes c_attr_sub match_left forallb].
  rewrite !andb_true_r, andb_true_iff, String.eqb_eq, forallb_forall.
  change (PyStr.lower "table") with "table".
  split; intros [H1 H2]; (split; [congruence|]); intros c Hc.
  - apply has_class_In, H2, Hc.
  - apply has_class_In, H2, Hc.
Qed.

(** *** What lies inside an element *)

Lemma node_forall_ind (P : node -> Prop) :
  (forall k s, P (Str k s)) ->
  (forall nm cl at_ ch, Forall P ch -> P (Elem nm cl at_ ch)) ->
  forall n, P n.
Proof.
  intros HS HE. fix IH 1. intros [k s|nm cl at_ ch].
  - apply HS.
  - apply HE. revert ch. fix IHl 1. intros [|c r].
    + constructor.
    + constructor; [apply IH | apply IHl].
Qed.

Lemma walk_children_trans (ctx : list frame) (nm : string) (cl : list string)
    (at_ : list (string * string)) (rest before : list node) (d e : tag) :
  Forall (fun n => forall ctx' d' e',
            In d' (descendants_of ctx' n) -> In e' (descendants d') ->
            In e' (descendants_of ctx' n)) rest ->
  In d (walk_children ctx nm cl at_ before rest) ->
  In e (descendants d) ->
  In e (walk_children ctx nm cl at_ before rest).
Proof.
  intros H. revert before. induction H as [|c r Hc _ IH]; intros before; simpl.
  - tauto.
  - rewrite !in_app_iff. intros [Hd|Hd] He.
    + left. eapply Hc; eassumption.
    + right. eapply IH; eassumption.
Qed.

Lemma descendants_of_trans (n : node) :
  forall ctx d e,
    In d (descendants_of ctx n) -> In e (descendants d) ->
    In e (descendants_of ctx n).
Proof.
  induction n as [k s|nm cl at_ ch IH] using node_forall_ind; intros ctx d e.
  - intros [].
  - rewrite descendants_of_elem. intros [<-|Hd] He.
    + right. exact He.
    + right. unfold descendants in Hd |- *. simpl in Hd |- *.
      eapply walk_children_trans; eassumption.
Qed.

(** What stands inside an element inside [t] stands inside [t]. *)
Lemma descendants_trans (t d e : tag) :
  In d (descendants t) -> In e (descendants d) -> In e (descendants t).
Proof.
  intros Hd He. unfold descendants in Hd |- *.
  eapply walk_children_trans; [|exact Hd|exact He].
  apply Forall_forall. intros n _. apply descendants_of_trans.
Qed.

Lemma select_inside (s : selector) (t d : tag) :
  In d (select s t) -> In d (descendants t) /\ matches s d = true.
Proof. unfold select. apply filter_In. Qed.

Lemma select_one_inside (s : selector) (t d : tag) :
  select_one s t = Some d -> In d (descendants t) /\ matches s d = true.
Proof.
  unfold select_one. intros H. apply select_inside.
  destruct (select s t); simpl in H; [discriminate|].
  injection H as ->. left. reflexivity.
Qed.

Lemma find_all_inside (names : list string) (t d : tag) :
  In d (find_all names t) -> In d (descendants t).
Proof. unfold find_all. intros H. apply filter_In in H. tauto. Qed.

(** A type selector on its own tests the element's name, in lower
    case. *)
Lemma matches_simple_ty (n : string) (d : tag) :
  matches (simple (ty n)) d = named (PyStr.lower n) d.
Proof.
  unfold matches, simple, ty, match_compound, named. simpl.
  rewrite !andb_true_r. reflexivity.
Qed.

Lemma matches_under_ty (anc : compound) (n : string) (d : tag) :
  matches (under anc (ty n)) d = true -> named (PyStr.lower n) d = true.
Proof.
  unfold matches, under, ty, match_compound, named. simpl.
  rewrite !andb_true_r. intros H. apply andb_true_iff in H. tauto.
Qed.

Lemma select_simple_ty (n : string) (t : tag) :
  select (simple (ty n)) t = filter (named (PyStr.lower n)) (descendants t).
Proof.
  unfold select. apply filter_ext. intros d. apply matches_simple_ty.
Qed.

(** The rows one of the row loops keeps stand inside the element it is
    given. *)
Lemma kept_rows_inside (part : tag) (row : list string) :
  In row (collect_rows (select sel_tr part) []) -> row_inside part row.
Proof.
  rewrite collect_rows_filter. simpl. intros H.
  apply in_map_iff in H. destruct H as [tr [<- Htr]].
  apply filter_In in Htr. destruct Htr as [Htr _].
  apply select_inside in Htr. destruct Htr as [Hin Hm].
  exists tr. split; [exact Hin|].
  split; [rewrite <- (matches_simple_ty "tr"); exact Hm|].
  split; [reflexivity|].
  apply Forall_forall. intros cell Hc.
  eapply descendants_trans; [exact Hin | eapply find_all_inside; exact Hc].
Qed.

Lemma row_inside_up (table part : tag) (row : list string) :
  In part (descendants table) -> row_inside part row -> row_inside table row.
Proof.
  intros Hp [tr [Hin [Hn [Hr Hc]]]]. exists tr.
  split; [eapply descendants_trans; eassumption|].
  split; [exact Hn|]. split; [exact Hr|].
  eapply Forall_impl; [|exact Hc]. intros cell H.
  eapply descendants_trans; eassumption.
Qed.

(** C5: the peer-comparison parser reads the first element of the section
    that is a table carrying all five classes of the selector: every
    header it returns is the text of a header cell inside that table and
    every row and footer row is read off the cells of a row inside that
    table, a cell's text being that of the cell's own content; when the
    section has no such table the result is the "No peer table found"
    placeholder. *)
Theorem C5_peers_only_from_peer_table (peers_soup : tag) :
  match select_one sel_peer_table peers_soup with
  | Some table =>
      is_peer_table table
      /\ (exists before after,
            descendants peers_soup = before ++ table :: after
            /\ Forall (fun d => ~ is_peer_table d) before)
      /\ parse_peers_section peers_soup
         = VDict [("peer_comparison",
                   VDict [("headers", vstrs (peer_headers table));
                          ("rows", vrows (peer_rows table));
                          ("footer", vrows (peer_footer table))])]
      /\ Forall (header_inside table) (peer_headers table)
      /\ Forall (row_inside table) (peer_rows table)
      /\ Forall (row_inside table) (peer_footer table)
      /\ (forall cell ctx,
            text_strip cell
            = text_strip (Tag ctx (tg_name cell) (tg_classes cell) (tg_attrs cell)
                              (tg_children cell)))
  | None =>
      parse_peers_section peers_soup
      = VDict [("peer_comparison", VDict [("info", VStr "No peer table found")])]
      /\ forall d, In d (descendants peers_soup) -> ~ is_peer_table d
  end.
Proof.
  unfold parse_peers_section.
  destruct (select_one sel_peer_table peers_soup) as [table|] eqn:E.
  - unfold select_one, select in E. apply hd_error_filter_Some in E.
    destruct E as [Hm [before [after [Hd Hb]]]].
    split; [apply matches_peer_table, Hm|].
    split.
    { exists before, after. split; [exact Hd|].
      eapply Forall_impl; [|exact Hb]. simpl. intros d Hf Hp.
      apply matches_peer_table in Hp. congruence. }
    split; [reflexivity|].
    split; [|split; [|split]].
    + unfold peer_headers.
      destruct (select_one sel_thead table) as [thead|] eqn:Eh; [|constructor].
      apply select_one_inside in Eh. destruct Eh as [Hin _].
      apply Forall_forall. intros h Hh. apply in_map_iff in Hh.
      destruct Hh as [cell [<- Hc]]. apply select_inside in Hc.
      destruct Hc as [Hcin Hcm]. exists cell.
      split; [eapply descendants_trans; eassumption|].
      split; [apply (matches_under_ty _ "th" _ Hcm) | reflexivity].
    + unfold peer_rows.
      destruct (select_one sel_tbody table) as [tbody|] eqn:Eb; [|constructor].
      apply select_one_inside in Eb. destruct Eb as [Hin _].
      apply Forall_forall. intros row Hr.
      apply (@row_inside_up table tbody row Hin), kept_rows_inside, Hr.
    + unfold peer_footer.
      destruct (select_one sel_tfoot table) as [tfoot|] eqn:Ef; [|constructor].
      apply select_one_inside in Ef. destruct Ef as [Hin _].
      apply Forall_forall. intros row Hr.
      apply (@row_inside_up table tfoot row Hin), kept_rows_inside, Hr.
    + intros cell ctx. reflexivity.
  - split; [reflexivity|]. intros d Hin Hp.
    unfold select_one, select in E.
    pose proof (hd_error_filter_None _ _ E d Hin) as Hf.
    apply matches_peer_table in Hp. congruence.
Qed.

(** C2 (as the code has it): [parse_table] reads the rows inside the
    first [tbody] element of the table and no others; of those it keeps
    exactly the rows that have a cell with non-empty trimmed text, in
    document order; a table without [tbody] element gives no rows. *)
Theorem C2_parse_table_first_tbody_rows (t : tag) :
  match select_one sel_tbody t with
  | Some body =>
      vget "rows" (parse_table (Some t))
      = Some (vrows (map row_texts
                        (filter row_nonblank
                                (filter (named "tr") (descendants body)))))
      /\ named "tbody" body = true
      /\ exists before after,
           descendants t = before ++ body :: after
           /\ Forall (fun d => named "tbody" d = false) before
  | None =>
      vget "rows" (parse_table (Some t)) = Some (vrows [])
      /\ forall d, In d (descendants t) -> named "tbody" d = false
  end
  /\ (forall row,
        row_nonblank row = true <->
        exists cell, In cell (find_all ["th"; "td"] row) /\ text_strip cell <> "")
  /\ (forall cell, text_strip cell <> "" <-> PyStr.strip (text cell) <> "").
Proof.
  split; [|split].
  - unfold parse_table, table_rows.
    destruct (select_one sel_tbody t) as [body|] eqn:E.
    + split.
      * simpl. rewrite collect_rows_filter. simpl.
        unfold sel_tr. rewrite select_simple_ty. reflexivity.
      * unfold select_one, select in E. apply hd_error_filter_Some in E.
        destruct E as [Hm [before [after [Hd Hb]]]].
        unfold sel_tbody in *. rewrite matches_simple_ty in Hm.
        split; [exact Hm|]. exists before, after. split; [exact Hd|].
        eapply Forall_impl; [|exact Hb]. intros d Hf. cbv beta in Hf.
        rewrite matches_simple_ty in Hf. exact Hf.
    + split; [reflexivity|]. intros d Hin.
      unfold select_one, select in E.
      pose proof (hd_error_filter_None _ _ E d Hin) as Hf.
      unfold sel_tbody in Hf. rewrite matches_simple_ty in Hf. exact Hf.
  - apply row_nonblank_iff.
  - intros cell. rewrite <- !PyStrFacts.truthy_true_iff, text_strip_truthy.
    unfold cell_blank. rewrite negb_involutive. tauto.
Qed.

(** C2 as stated fails: the row of the second body has cells that are
    not empty and is not kept, and a row directly under the table element
    is not kept either. *)
Lemma C2_row_outside_first_tbody_is_dropped :
  (exists row,
      In row (filter (named "tr") (descendants TableExamples.two_bodies_table))
      /\ option_map fr_name (hd_error (tg_ctx row)) = Some "tbody"
      /\ row_texts row = ["Expenses"; "60"]
      /\ row_nonblank row = true)
  /\ parse_table (Some TableExamples.two_bodies_table)
     = VDict [("headers", VList []);
              ("rows", VList [VList [VStr "Sales"; VStr "100"]])]
  /\ parse_table (Some TableExamples.no_body_table)
     = VDict [("headers", VList []); ("rows", VList [])].
Proof.
  split; [|split; reflexivity].
  eexists. split; [vm_compute; right; left; reflexivity|].
  repeat split.
Qed.

(** ** The commentary document *)

Lemma get_app {V : Type} (k : string) (a b : PyDict.t V) :
  PyDict.get k (a ++ b)
  = match PyDict.get k a with
    | Some v => Some v
    | None => PyDict.get k b
    end.
Proof.
  induction a as [|[k' v'] a IH]; simpl; [reflexivity|].
  destruct (String.eqb k k'); [reflexivity | exact IH].
Qed.

Lemma commentary_loop_get (headings : list tag) (acc : PyDict.t string)
    (key : string) :
  PyDict.get key (commentary_loop headings acc)
  = match PyDict.get key (rev (flat_map heading_pair headings)) with
    | Some v => Some v
    | None => PyDict.get key acc
    end.
Proof.
  revert acc. induction headings as [|hd rest IH]; intros acc; simpl; [reflexivity|].
  unfold heading_pair at 1.
  destruct (find_next_sibling "div" "sub" hd) as [body|]; simpl.
  - rewrite IH, get_app. simpl.
    destruct (PyDict.get key (rev (flat_map heading_pair rest))); [reflexivity|].
    destruct (String.eqb key (text_strip hd)) eqn:E.
    + apply String.eqb_eq in E. subst key. apply PyDictFacts.get_set_same.
    + apply String.eqb_neq in E. apply PyDictFacts.get_set_other. exact E.
  - apply IH.
Qed.

Lemma get_rev_None {V : Type} (k : string) (l : PyDict.t V) :
  PyDict.get k (rev l) = None <-> ~ In k (map fst l).
Proof.
  rewrite PyDictFacts.get_None_keys. unfold PyDict.keys.
  rewrite map_rev, <- in_rev. tauto.
Qed.

Lemma next_sibling_from_spec (name cls_ : string) (ctx : list frame)
    (pn : string) (pc : list string) (pa : list (string * string))
    (rest before : list node) :
  match next_sibling_from name cls_ ctx pn pc pa before rest with
  | Some b =>
      exists skipped after,
        rest = skipped ++ node_of b :: after
        /\ tg_name b = name /\ In cls_ (tg_classes b)
        /\ Forall (fun n => match n with
                            | Elem nm cl _ _ => ~ (nm = name /\ In cls_ cl)
                            | Str _ _ => True
                            end) skipped
  | None =>
      Forall (fun n => match n with
                       | Elem nm cl _ _ => ~ (nm = name /\ In cls_ cl)
                       | Str _ _ => True
                       end) rest
  end.
Proof.
  revert before. induction rest as [|n r IH]; intros before; simpl; [constructor|].
  destruct n as [k s|nm cl at_ ch].
  - specialize (IH (Str k s :: before)).
    destruct (next_sibling_from name cls_ ctx pn pc pa (Str k s :: before) r).
    + destruct IH as [sk [af [-> [H1 [H2 H3]]]]]. exists (Str k s :: sk), af.
      repeat split; try assumption. constructor; [exact I | assumption].
    + constructor; [exact I | exact IH].
  - destruct (String.eqb nm name && has_class cls_ cl) eqn:E.
    + apply andb_true_iff in E. destruct E as [E1 E2].
      apply String.eqb_eq in E1. apply has_class_In in E2.
      exists [], r. simpl. unfold node_of. simpl. repeat split; auto.
    + assert (Hn : ~ (nm = name /\ In cls_ cl)).
      { intros [H1 H2]. apply String.eqb_eq in H1. apply has_class_In in H2.
        rewrite H1, H2 in E. discriminate. }
      specialize (IH (Elem nm cl at_ ch :: before)).
      destruct (next_sibling_from name cls_ ctx pn pc pa (Elem nm cl at_ ch :: before) r).
      * destruct IH as [sk [af [-> [H1 [H2 H3]]]]].
        exists (Elem nm cl at_ ch :: sk), af.
        repeat split; try assumption. constructor; assumption.
      * constructor; [exact Hn | exact IH].
Qed.

Lemma is_body_block_iff (n : node) :
  is_body_block n = false <->
  match n with
  | Elem nm cl _ _ => ~ (nm = "div" /\ In "sub" cl)
  | Str _ _ => True
  end.
Proof.
  destruct n as [k s|nm cl at_ ch]; simpl; [tauto|].
  rewrite andb_false_iff, <- not_true_iff_false, <- not_true_iff_false.
  rewrite String.eqb_eq, has_class_In.
  split; [tauto|]. intros H.
  destruct (String.eqb nm "div") eqn:E.
  - apply String.eqb_eq in E. right. tauto.
  - apply String.eqb_neq in E. left. exact E.
Qed.

(** [find_next_sibling] returns the first body block among the later
    siblings, however far, and nothing when there is none. *)
Lemma find_next_sibling_first (heading : tag) :
  match find_next_sibling "div" "sub" heading with
  | Some body =>
      exists skipped after,
        later_siblings heading = skipped ++ node_of body :: after
        /\ is_body_block (node_of body) = true
        /\ Forall (fun n => is_body_block n = false) skipped
  | None => Forall (fun n => is_body_block n = false) (later_siblings heading)
  end.
Proof.
  unfold find_next_sibling, later_siblings.
  destruct (tg_ctx heading) as [|f ctx]; [constructor|].
  pose proof (next_sibling_from_spec "div" "sub" ctx (fr_name f) (fr_classes f)
                (fr_attrs f) (fr_after f) (node_of heading :: fr_before f)) as H.
  destruct (next_sibling_from "div" "sub" ctx (fr_name f) (fr_classes f) (fr_attrs f)
              (node_of heading :: fr_before f) (fr_after f)) as [b|].
  - destruct H as [sk [af [-> [Hn [Hc Hs]]]]]. exists sk, af.
    split; [reflexivity|]. split.
    + unfold node_of. simpl. rewrite Hn. simpl. apply has_class_In, Hc.
    + eapply Forall_impl; [|exact Hs]. intros n Hn'. apply is_body_block_iff, Hn'.
  - eapply Forall_impl; [|exact H]. intros n Hn'. apply is_body_block_iff, Hn'.
Qed.

Section Commentary.
Variable html_parser : string -> list node.

(** C4 (as the code has it): the commentary mapping holds, for a heading
    text, the text (pieces joined by single spaces) of the first later
    sibling of the heading node that is a body block, whether or not
    other nodes stand in between; of several heading nodes with one text
    the last that has such a block decides; a heading text is absent
    exactly when no heading node with that text has a body block among its
    later siblings. *)
Theorem C4_commentary_first_later_block (commentary_html : string) :
  let soup := soup_of (html_parser commentary_html) in
  let out := parse_commentary_html html_parser commentary_html in
  (forall key, PyDict.get key out = PyDict.get key (rev (commentary_pairs soup)))
  /\ (forall key,
        PyDict.get key out = None <->
        forall heading,
          In heading (select sel_commentary_heading soup) ->
          text_strip heading = key ->
          find_next_sibling "div" "sub" heading = None)
  /\ (forall heading,
        match find_next_sibling "div" "sub" heading with
        | Some body =>
            text_spaced body = String.concat " " (pieces body)
            /\ exists skipped after,
                 later_siblings heading = skipped ++ node_of body :: after
                 /\ is_body_block (node_of body) = true
                 /\ Forall (fun n => is_body_block n = false) skipped
        | None =>
            Forall (fun n => is_body_block n = false) (later_siblings heading)
        end).
Proof.
  intros soup out.
  assert (Hget : forall key,
             PyDict.get key out = PyDict.get key (rev (commentary_pairs soup))).
  { intros key. unfold out, parse_commentary_html, parse_commentary_soup.
    rewrite commentary_loop_get. fold soup.
    fold (commentary_pairs soup).
    destruct (PyDict.get key (rev (commentary_pairs soup))); reflexivity. }
  split; [exact Hget|]. split.
  - intros key. rewrite Hget, get_rev_None. unfold commentary_pairs.
    split.
    + intros Hni heading Hin Hkey.
      destruct (find_next_sibling "div" "sub" heading) as [body|] eqn:E; [|reflexivity].
      exfalso. apply Hni. apply in_map_iff.
      exists (key, text_spaced body). split; [reflexivity|].
      apply in_flat_map. exists heading. split; [exact Hin|].
      unfold heading_pair. rewrite E, Hkey. left. reflexivity.
    + intros H Hin. apply in_map_iff in Hin. destruct Hin as [[k v] [Hk Hin]].
      simpl in Hk. subst k. apply in_flat_map in Hin.
      destruct Hin as [heading [Hin Hp]]. unfold heading_pair in Hp.
      destruct (find_next_sibling "div" "sub" heading) as [body|] eqn:E; [|destruct Hp].
      destruct Hp as [[= Hk _]|[]].
      rewrite (H heading Hin Hk) in E. discriminate.
  - intros heading. pose proof (find_next_sibling_first heading) as H.
    destruct (find_next_sibling "div" "sub" heading) as [body|]; [|exact H].
    split; [|exact H].
    unfold text_spaced, get_text, PyStr.join. rewrite all_strings_strip. reflexivity.
Qed.

End Commentary.

(** ** Trimmed text *)

Module TrimFacts.
Import PyStr.

Lemma last_char_cons (a : ascii) (r : string) :
  last_char (String a r) = if truthy r then last_char r else Some a.
Proof. destruct r; reflexivity. Qed.

Lemma last_char_truthy (s : string) (c : ascii) :
  last_char s = Some c -> truthy s = true.
Proof. destruct s; simpl; [discriminate | reflexivity]. Qed.

Lemma lstrip_by_first (p : ascii -> bool) (s : string) (c : ascii) :
  first_char (lstrip_by p s) = Some c -> p c = false.
Proof.
  induction s as [|a r IH]; simpl; [discriminate|].
  destruct (p a) eqn:E; [exact IH|]. simpl. intros [= <-]. exact E.
Qed.

Lemma lstrip_by_last (p : ascii -> bool) (s : string) (c : ascii) :
  last_char (lstrip_by p s) = Some c -> last_char s = Some c.
Proof.
  induction s as [|a r IH]; [simpl; discriminate|].
  cbn [lstrip_by]. destruct (p a); [|tauto].
  intros H. specialize (IH H). rewrite last_char_cons.
  rewrite (last_char_truthy _ IH). exact IH.
Qed.

Lemma lstrip_by_fix (p : ascii -> bool) (s : string) :
  (forall c, first_char s = Some c -> p c = false) -> lstrip_by p s = s.
Proof.
  destruct s as [|a r]; simpl; [reflexivity|].
  intros H. rewrite (H a eq_refl). reflexivity.
Qed.

Lemma rstrip_by_fix (p : ascii -> bool) (s : string) :
  (forall c, last_char s = Some c -> p c = false) -> rstrip_by p s = s.
Proof.
  induction s as [|a r IH]; [reflexivity|].
  intros H. cbn [rstrip_by]. rewrite last_char_cons in H.
  destruct r as [|b r'].
  - simpl in *. rewrite (H a eq_refl). reflexivity.
  - rewrite IH; [reflexivity|]. simpl truthy in H. exact H.
Qed.

Lemma edges_ok_strip (s : string) : edges_ok (strip s).
Proof.
  unfold strip. split; intros c H.
  - apply lstrip_by_first in H. exact H.
  - apply lstrip_by_last in H. apply rstrip_by_last in H. exact H.
Qed.

Lemma edges_ok_trimmed (s : string) : edges_ok s -> trimmed s.
Proof.
  intros [Hf Hl]. unfold trimmed, strip.
  rewrite (rstrip_by_fix _ _ Hl). apply lstrip_by_fix, Hf.
Qed.

Lemma first_char_append (a b : string) :
  truthy a = true -> first_char (a ++ b) = first_char a.
Proof. destruct a; simpl; [discriminate | reflexivity]. Qed.

Lemma last_char_append (a b : string) :
  truthy b = true -> last_char (a ++ b) = last_char b.
Proof.
  intros Hb. induction a as [|c r IH]; [reflexivity|].
  change (String c r ++ b)%string with (String c (r ++ b)).
  rewrite last_char_cons, PyStrFacts.truthy_append, Hb, orb_true_r. exact IH.
Qed.

Lemma edges_ok_concat (sep : string) (l : list string) :
  Forall (fun s => truthy s = true /\ edges_ok s) l ->
  edges_ok (String.concat sep l).
Proof.
  induction l as [|a l IH]; intros H.
  - split; simpl; discriminate.
  - inversion H as [|? ? [Ha [Hfa Hla]] Hl]; subst.
    destruct l as [|b l]; [split; assumption|].
    specialize (IH Hl). destruct IH as [_ IHl].
    assert (Ht : truthy (String.concat sep (b :: l)) = true).
    { rewrite PyStrFacts.truthy_concat; [reflexivity|].
      eapply Forall_impl; [|exact Hl]. simpl. tauto. }
    rewrite PyStrFacts.concat_cons2. split; intros c Hc.
    + rewrite first_char_append in Hc by exact Ha. apply Hfa, Hc.
    + rewrite last_char_append in Hc
        by (rewrite PyStrFacts.truthy_append, Ht; apply orb_true_r).
      rewrite last_char_append in Hc by exact Ht. apply IHl, Hc.
Qed.

End TrimFacts.

Lemma pieces_edges_ok (t : tag) :
  Forall (fun s => PyStr.truthy s = true /\ edges_ok s) (pieces t).
Proof.
  unfold pieces. apply Forall_forall. intros s Hs.
  apply filter_In in Hs. destruct Hs as [Hin Ht]. split; [exact Ht|].
  apply in_map_iff in Hin. destruct Hin as [x [<- _]].
  apply TrimFacts.edges_ok_strip.
Qed.

Lemma get_text_strip_pieces (sep : string) (t : tag) :
  get_text sep true t = String.concat sep (pieces t).
Proof. unfold get_text, PyStr.join. rewrite all_strings_strip. reflexivity. Qed.

(** Text taken with [strip=True] has no space at either end, whatever
    the separator. *)
Lemma get_text_trimmed (sep : string) (t : tag) : trimmed (get_text sep true t).
Proof.
  rewrite get_text_strip_pieces.
  apply TrimFacts.edges_ok_trimmed, TrimFacts.edges_ok_concat, pieces_edges_ok.
Qed.


(** ** The company identifier *)

Lemma prefix_split (p s : string) :
  String.prefix p s = true -> s = (p ++ drop (String.length p) s)%string.
Proof.
  revert s. induction p as [|a p IH]; intros s; [reflexivity|].
  destruct s as [|b s]; simpl; [discriminate|].
  destruct (Ascii.ascii_dec a b) as [->|]; [|discriminate].
  intros H. rewrite <- (IH s H). reflexivity.
Qed.

Lemma span_digits_split (s d r : string) :
  span_digits s = (d, r) ->
  s = (d ++ r)%string /\ PyStr.all_chars isdigit d = true.
Proof.
  revert d r. induction s as [|c s IH]; intros d r; simpl.
  - intros [= <- <-]. split; reflexivity.
  - destruct (isdigit c) eqn:E.
    + destruct (span_digits s) as [d' r'] eqn:Es. intros [= <- <-].
      destruct (IH _ _ eq_refl) as [-> Hd]. simpl. rewrite E, Hd.
      split; reflexivity.
    + intros [= <- <-]. split; reflexivity.
Qed.

(** A match at the head: the marker, one digit or more, a quote. *)
Lemma match_id_here_sound (s d : string) :
  match_id_here s = Some d ->
  PyStr.truthy d = true
  /\ PyStr.all_chars isdigit d = true
  /\ exists rest, s = (id_marker ++ d ++ dquote ++ rest)%string.
Proof.
  unfold match_id_here.
  destruct (String.prefix id_marker s) eqn:Hp; [|discriminate].
  destruct (span_digits (drop (String.length id_marker) s)) as [digits rest] eqn:Hs.
  destruct (PyStr.truthy digits && String.prefix dquote rest) eqn:Hc; [|discriminate].
  intros [= <-]. apply andb_true_iff in Hc. destruct Hc as [Ht Hq].
  apply span_digits_split in Hs. destruct Hs as [Hs Hd].
  split; [exact Ht|]. split; [exact Hd|].
  exists (drop (String.length dquote) rest).
  rewrite <- (prefix_split _ _ Hq), <- Hs. apply prefix_split, Hp.
Qed.

(** [search_company_id] returns the digits of the leftmost match. *)
Lemma search_company_id_leftmost (s d : string) :
  search_company_id s = Some d ->
  exists a b,
    s = (a ++ b)%string /\ match_id_here b = Some d
    /\ forall a1 a2, a = (a1 ++ a2)%string -> a2 <> "" ->
                     match_id_here (a2 ++ b) = None.
Proof.
  induction s as [|c s IH].
  - vm_compute. discriminate.
  - cbn [search_company_id]. destruct (match_id_here (String c s)) eqn:E.
    + intros [= ->]. exists "", (String c s). repeat split; [exact E|].
      intros [|? ?] a2; simpl; [intros <-; congruence | discriminate].
    + intros H. destruct (IH H) as [a [b [-> [Hm Hl]]]].
      exists (String c a), b. repeat split; [exact Hm|].
      intros [|x a1] a2; simpl.
      * intros <- _. exact E.
      * intros [= -> ->] Hne. apply (Hl a1 a2 eq_refl Hne).
Qed.

Lemma search_company_id_truthy (s d : string) :
  search_company_id s = Some d -> PyStr.truthy d = true.
Proof.
  intros H. apply search_company_id_leftmost in H.
  destruct H as [a [b [_ [Hm _]]]]. apply match_id_here_sound in Hm. tauto.
Qed.

(** The loop over the style blocks stops at the first block with a
    match. *)
Lemma first_company_id_spec (style_tags : list tag) :
  match first_company_id style_tags with
  | Some d =>
      PyStr.truthy d = true
      /\ exists before st after,
           style_tags = before ++ st :: after
           /\ Forall (fun t => search_company_id (text t) = None) before
           /\ search_company_id (text st) = Some d
  | None => Forall (fun t => search_company_id (text t) = None) style_tags
  end.
Proof.
  induction style_tags as [|t l IH]; simpl; [constructor|].
  destruct (search_company_id (text t)) as [d|] eqn:E.
  - split; [apply (search_company_id_truthy _ E)|].
    exists [], t, l. repeat split; [constructor | exact E].
  - destruct (first_company_id l) as [d|].
    + destruct IH as [Ht [b [st [a [-> [Hb Hs]]]]]]. split; [exact Ht|].
      exists (t :: b), st, a. repeat split; [constructor; assumption | exact Hs].
    + constructor; assumption.
Qed.

(** ** The orchestrator *)

Section OrchestratorFacts.
Variable html_parser : string -> list node.
Variable css_compile : string -> option selector.

(** The loop over the navigation links writes only under the labels of
    the links. *)
Lemma dispatch_links_get_other (soup : tag) (key : string) (nav_links : list tag)
    (results results' : results_t) :
  dispatch_links css_compile soup nav_links results = Returned results' ->
  ~ In key (nav_labels nav_links) ->
  PyDict.get key results' = PyDict.get key results.
Proof.
  revert results. induction nav_links as [|link rest IH]; intros results; simpl.
  - intros [= <-] _. reflexivity.
  - unfold nav_labels in *. simpl. unfold link_label_of at 1.
    destruct (attr "href" link) as [href|]; [|discriminate].
    destruct (negb (PyStr.startswith "#" href)); [apply IH|].
    destruct (negb (PyStr.truthy (PyStr.lstrip_hash href))); [apply IH|].
    cbv zeta. intros H Hni.
    assert (Hrest : ~ In key
              (flat_map (fun l => match link_label_of l with
                                  | Some x => [x]
                                  | None => []
                                  end) rest)).
    { intros Hin. apply Hni. apply in_or_app. right. exact Hin. }
    assert (Hne : key <> (if PyStr.truthy (text_strip link) then text_strip link
                          else PyStr.lstrip_hash href)).
    { intros ->. apply Hni. left. reflexivity. }
    destruct (resolve_section css_compile (PyStr.lstrip_hash href) soup)
      as [[section_tag|]|e]; [| apply (IH _ H Hrest) | discriminate].
    destruct (parser_for _ _);
      rewrite (IH _ H Hrest); apply PyDictFacts.get_set_other; exact Hne.
Qed.

(** The loop returns when soupsieve accepts the selectors it is given. *)
Lemma dispatch_links_returns (soup : tag) (nav_links : list tag) (results : results_t) :
  (forall s, css_compile s <> None) ->
  Forall (fun link => attr "href" link <> None) nav_links ->
  exists results', dispatch_links css_compile soup nav_links results = Returned results'.
Proof.
  intros Hc Hl. revert results.
  induction Hl as [|link rest Hh _ IH]; intros results; simpl; [eauto|].
  destruct (attr "href" link) as [href|]; [|congruence].
  destruct (negb (PyStr.startswith "#" href)); [apply IH|].
  destruct (negb (PyStr.truthy (PyStr.lstrip_hash href))); [apply IH|].
  cbv zeta. unfold resolve_section, select_one_str.
  destruct (css_compile ("section#" ++ PyStr.lstrip_hash href)) as [s1|] eqn:E1;
    [|exfalso; exact (Hc _ E1)].
  destruct (select_one s1 soup).
  - destruct (parser_for _ _); apply IH.
  - destruct (css_compile ("div#" ++ PyStr.lstrip_hash href)) as [s2|] eqn:E2;
      [|exfalso; exact (Hc _ E2)].
    destruct (select_one s2 soup); [|apply IH].
    destruct (parser_for _ _); apply IH.
Qed.

Lemma find_all_with_attr_has (name key : string) (t : tag) :
  Forall (fun d => attr key d <> None) (find_all_with_attr name key t).
Proof.
  unfold find_all_with_attr. apply Forall_forall. intros d Hd.
  apply filter_In in Hd. destruct Hd as [_ Hd].
  apply andb_true_iff in Hd. destruct Hd as [_ Hd].
  destruct (attr key d); [discriminate | discriminate].
Qed.

Section Run.
Variable http_get : string -> reply.

Local Abbreviation scrape := (scrape_screener_data html_parser css_compile http_get).

(** C7: when the page has no navigation list, the run returns, after the
    one request for the page, the result that holds exactly
    [company_name] and [company_id], in that order. *)
Theorem C7_no_navigation_partial_result (url : string) (st : nat) (txt : string) :
  http_get url = Reply st txt ->
  is_error_status st = false ->
  select_one sel_sub_nav (soup_of (html_parser txt)) = None ->
  scrape url
  = ([url],
     Returned
       [("company_name", VStr (parse_company_name (soup_of (html_parser txt))));
        ("company_id",
         VStr (id_or_na (find_company_id (soup_of (html_parser txt)))))]).
Proof.
  intros Hget Hst Hnav. unfold scrape_screener_data, scrape_soup.
  rewrite Hget, Hst, Hnav. reflexivity.
Qed.

(** C6 (as the code has it): on a page that has the navigation list and
    on which the run returns, [company_id] is set, before the sections
    are read, to the digits of the first style block that matches the
    pattern, or to "N/A" when none does, and stays so unless a navigation
    link carries the label [company_id]; without a match no commentary
    request is made and the commentary key holds the placeholder; with a
    match the commentary document is requested and the commentary key holds
    what the commentary parser makes of it. *)
Theorem C6_company_id_and_commentary (url : string) (st : nat) (txt : string)
    (sub_nav : tag) (requests : list string) (results : results_t) :
  http_get url = Reply st txt ->
  is_error_status st = false ->
  select_one sel_sub_nav (soup_of (html_parser txt)) = Some sub_nav ->
  scrape url = (requests, Returned results) ->
  let soup := soup_of (html_parser txt) in
  PyDict.get "company_id" (name_and_id soup)
  = Some (VStr (id_or_na (find_company_id soup)))
  /\ (~ In "company_id" (nav_labels (find_all_with_attr "a" "href" sub_nav)) ->
      PyDict.get "company_id" results
      = Some (VStr (id_or_na (find_company_id soup))))
  /\ match find_company_id soup with
     | Some cid =>
         id_or_na (Some cid) = cid
         /\ (exists before style_tag after,
               find_all ["style"] soup = before ++ style_tag :: after
               /\ Forall (fun t => search_company_id (text t) = None) before
               /\ search_company_id (text style_tag) = Some cid)
         /\ requests = [url; commentary_url cid]
         /\ exists st2 txt2,
              http_get (commentary_url cid) = Reply st2 txt2
              /\ is_error_status st2 = false
              /\ PyDict.get "commentary" results
                 = Some (export_commentary (parse_commentary_html html_parser txt2))
     | None =>
         id_or_na None = "N/A"
         /\ Forall (fun t => search_company_id (text t) = None)
                   (find_all ["style"] soup)
         /\ requests = [url]
         /\ PyDict.get "commentary" results = Some no_commentary_info
     end.
Proof.
  intros Hget Hst Hnav Hrun soup.
  unfold scrape_screener_data in Hrun. rewrite Hget, Hst in Hrun.
  fold soup in Hrun, Hnav. unfold scrape_soup in Hrun. rewrite Hnav in Hrun.
  destruct (dispatch_links css_compile soup (find_all_with_attr "a" "href" sub_nav)
              (name_and_id soup)) as [r0|e] eqn:Hd; [|discriminate].
  set (r1 := match select_one sel_growth_div soup with
             | Some growth_div =>
                 PyDict.set "growth_metrics" (parse_growth_tables growth_div) r0
             | None => r0
             end) in Hrun.
  assert (Hname : PyDict.get "company_id" (name_and_id soup)
                  = Some (VStr (id_or_na (find_company_id soup)))) by reflexivity.
  assert (Hr1 : ~ In "company_id" (nav_labels (find_all_with_attr "a" "href" sub_nav)) ->
                PyDict.get "company_id" r1
                = Some (VStr (id_or_na (find_company_id soup)))).
  { intros Hni. rewrite <- Hname.
    rewrite <- (@dispatch_links_get_other soup "company_id" _ _ _ Hd Hni).
    unfold r1. destruct (select_one sel_growth_div soup); [|reflexivity].
    apply PyDictFacts.get_set_other. discriminate. }
  pose proof (first_company_id_spec (find_all ["style"] soup)) as Hspec.
  fold (find_company_id soup) in Hspec.
  split; [exact Hname|].
  destruct (find_company_id soup) as [cid|] eqn:Hcid.
  - destruct Hspec as [Ht Hfirst]. rewrite Ht in Hrun.
    unfold fetch_commentary_data in Hrun.
    destruct (http_get (commentary_url cid)) as [|st2 txt2] eqn:Hc; [discriminate|].
    destruct (is_error_status st2) eqn:Hst2; [discriminate|].
    injection Hrun as <- <-.
    split.
    + intros Hni. rewrite PyDictFacts.get_set_other by discriminate. auto.
    + split; [simpl; rewrite Ht; reflexivity|].
      split; [exact Hfirst|]. split; [reflexivity|].
      exists st2, txt2. split; [reflexivity|]. split; [exact Hst2|].
      apply PyDictFacts.get_set_same.
  - injection Hrun as <- <-.
    split.
    + intros Hni. rewrite PyDictFacts.get_set_other by discriminate. auto.
    + repeat split; [exact Hspec|]. apply PyDictFacts.get_set_same.
Qed.

(** The run returns when both documents arrive and soupsieve accepts the
    selectors built from the links. *)
Lemma scrape_returns (url : string) (st : nat) (txt : string) :
  http_get url = Reply st txt ->
  is_error_status st = false ->
  (forall s, css_compile s <> None) ->
  (forall cid, exists st2 txt2,
      http_get (commentary_url cid) = Reply st2 txt2 /\ is_error_status st2 = false) ->
  exists requests results, scrape url = (requests, Returned results).
Proof.
  intros Hget Hst Hc Hcom. unfold scrape_screener_data, scrape_soup.
  rewrite Hget, Hst.
  destruct (select_one sel_sub_nav (soup_of (html_parser txt))) as [sub_nav|];
    [|eauto].
  destruct (dispatch_links_returns (soup_of (html_parser txt)) (name_and_id (soup_of (html_parser txt)))
              Hc (find_all_with_attr_has "a" "href" sub_nav)) as [r0 ->].
  destruct (find_company_id (soup_of (html_parser txt))) as [cid|]; [|eauto].
  destruct (PyStr.truthy cid); [|eauto].
  unfold fetch_commentary_data.
  destruct (Hcom cid) as [st2 [txt2 [-> ->]]]. eauto.
Qed.

End Run.

(** The network tells on a run only through the replies to the requests
    the run makes: a second network that answers those requests alike
    gives the same requests and the same end. *)
Lemma run_depends_on_fetched_documents (net1 net2 : string -> reply) (url : string) :
  (forall u,
      In u (fst (scrape_screener_data html_parser css_compile net1 url)) ->
      net1 u = net2 u) ->
  scrape_screener_data html_parser css_compile net1 url
  = scrape_screener_data html_parser css_compile net2 url.
Proof.
  intros Hsame.
  assert (Hurl : net1 url = net2 url).
  { apply Hsame. unfold scrape_screener_data.
    destruct (net1 url) as [|st txt]; [left; reflexivity|].
    destruct (is_error_status st); [left; reflexivity|].
    destruct (scrape_soup _ _ _ _). left. reflexivity. }
  unfold scrape_screener_data in *. rewrite <- Hurl.
  destruct (net1 url) as [|st txt]; [reflexivity|].
  destruct (is_error_status st); [reflexivity|].
  unfold scrape_soup in *.
  destruct (select_one sel_sub_nav (soup_of (html_parser txt))); [|reflexivity].
  destruct (dispatch_links css_compile _ _ _) as [r0|e]; [|reflexivity].
  destruct (find_company_id (soup_of (html_parser txt))) as [cid|]; [|reflexivity].
  destruct (PyStr.truthy cid); [|reflexivity].
  assert (Hc : net1 (commentary_url cid) = net2 (commentary_url cid)).
  { apply Hsame. destruct (fetch_commentary_data html_parser net1 cid);
      simpl; right; left; reflexivity. }
  unfold fetch_commentary_data. rewrite <- Hc. reflexivity.
Qed.

End OrchestratorFacts.

(** ** The statements on the example documents *)

(** C3 as stated fails on a row that has a header cell next to its two
    data cells: it comes after a heading row and has exactly two data
    cells, and no entry is recorded. *)
Lemma C3_header_cell_row_records_nothing :
  exists first_row second_row,
    Growth.tables_of Examples.growth_section_mixed = [[first_row; second_row]]
    /\ heading_of first_row = Some "Compounded Sales Growth"
    /\ List.length (find_all ["td"] second_row) = 2
    /\ parse_growth_tables Examples.growth_section_mixed
       = VDict [("Compounded Sales Growth", VDict []); ("Period", VDict [])].
Proof.
  eexists. eexists. split; [vm_compute; reflexivity|].
  repeat split; vm_compute; reflexivity.
Qed.

(** The two-cell row "10 Years: 17%" after the heading row of a first
    table. *)
Lemma C3_growth_entry_recorded_witness :
  growth_wf Examples.after_heading
  /\ Growth.view (Growth.growth_row Examples.after_heading Examples.ten_years_row)
     = [("Compounded Sales Growth", [("10 Years", "17%")])].
Proof.
  assert (W : growth_wf Examples.after_heading).
  { constructor.
    - vm_compute. repeat constructor. intros [].
    - vm_compute. repeat constructor.
    - intros h. vm_compute. intros [= <-]. reflexivity. }
  split; [exact W|].
  destruct (@C3_growth_entry_recorded Examples.after_heading Examples.ten_years_row W)
    as [H _].
  vm_compute in H. destruct H as [H _]. vm_compute. exact H.
Defined.

(** A second table repeats the heading of the first: the final mapping
    of the heading is that of the second table alone. *)
Lemma C10_heading_row_reinitialises_witness :
  heading_of Examples.heading_row = Some "Compounded Sales Growth"
  /\ PyDict.get "Compounded Sales Growth"
       (Growth.view
          (Growth.growth_tables Growth.init
             ([[Examples.heading_row; Examples.ten_years_row]]
              ++ ([] ++ Examples.heading_row :: [Examples.five_years_row]) :: [])))
     = PyDict.get "Compounded Sales Growth"
         (Growth.view
            (Growth.growth_tables Growth.init
               ((Examples.heading_row :: [Examples.five_years_row]) :: []))).
Proof.
  assert (H : heading_of Examples.heading_row = Some "Compounded Sales Growth")
    by reflexivity.
  split; [exact H|].
  exact (proj2 (@C10_heading_row_reinitialises
                  [[Examples.heading_row; Examples.ten_years_row]] []
                  Examples.heading_row [Examples.five_years_row] []
                  "Compounded Sales Growth" H)).
Defined.

(** C4 as stated fails: the heading's next sibling is a paragraph, not a
    body block, and the heading is in the mapping all the same, with the
    text of the block that comes later. *)
Lemma C4_block_after_other_sibling_is_paired :
  exists heading,
    select sel_commentary_heading
           (soup_of (Examples.html_parser Examples.commentary_gap_markup))
    = [heading]
    /\ hd_error (later_siblings heading)
       = Some (Examples.el "p" [] [Examples.txt "Updated daily"])
    /\ is_body_block (Examples.el "p" [] [Examples.txt "Updated daily"]) = false
    /\ PyDict.get "About"
         (parse_commentary_html Examples.html_parser Examples.commentary_gap_markup)
       = Some "Kotak Mahindra Bank is a banking company.".
Proof.
  eexists. split; [vm_compute; reflexivity|].
  repeat split; vm_compute; reflexivity.
Qed.


(** C6 as stated fails on a page without navigation list: no style block
    matches, [company_id] is "N/A", and the result has no commentary
    key. *)
Lemma C6_no_navigation_no_commentary_key :
  find_company_id (soup_of (Examples.html_parser Examples.bare_markup)) = None
  /\ exists results,
       scrape_screener_data Examples.html_parser Examples.css_compile Examples.net1
                            Examples.bare_url
       = ([Examples.bare_url], Returned results)
       /\ PyDict.get "company_id" results = Some (VStr "N/A")
       /\ PyDict.get "commentary" results = None.
Proof.
  split; [vm_compute; reflexivity|].
  eexists. split; [vm_compute; reflexivity|].
  split; vm_compute; reflexivity.
Qed.

(** The page that has only the name heading. *)
Lemma C7_no_navigation_partial_result_witness :
  Examples.net1 Examples.bare_url = Reply 200 Examples.bare_markup
  /\ is_error_status 200 = false
  /\ select_one sel_sub_nav (soup_of (Examples.html_parser Examples.bare_markup)) = None
  /\ scrape_screener_data Examples.html_parser Examples.css_compile Examples.net1
                          Examples.bare_url
     = ([Examples.bare_url],
        Returned [("company_name", VStr "Kotak Mahindra Bank Ltd");
                  ("company_id", VStr "N/A")]).
Proof.
  assert (H1 : Examples.net1 Examples.bare_url = Reply 200 Examples.bare_markup)
    by reflexivity.
  assert (H2 : is_error_status 200 = false) by reflexivity.
  assert (H3 : select_one sel_sub_nav
                 (soup_of (Examples.html_parser Examples.bare_markup)) = None)
    by reflexivity.
  split; [exact H1|]. split; [exact H2|]. split; [exact H3|].
  exact (@C7_no_navigation_partial_result Examples.html_parser Examples.css_compile
           Examples.net1 Examples.bare_url 200 Examples.bare_markup H1 H2 H3).
Defined.

(** The end-to-end example: id 12345, one navigation link, one
    commentary pair. *)
Lemma C6_company_id_and_commentary_witness :
  Examples.net1 Examples.page_url = Reply 200 Examples.page_markup
  /\ is_error_status 200 = false
  /\ (exists sub_nav,
        select_one sel_sub_nav (soup_of (Examples.html_parser Examples.page_markup))
        = Some sub_nav)
  /\ exists results,
       scrape_screener_data Examples.html_parser Examples.css_compile Examples.net1
                            Examples.page_url
       = ([Examples.page_url; commentary_url "12345"], Returned results)
       /\ PyDict.get "company_id" results = Some (VStr "12345")
       /\ PyDict.get "commentary" results
          = Some (VDict [("About", VStr "Kotak Mahindra Bank is a banking company.")]).
Proof.
  assert (H1 : Examples.net1 Examples.page_url = Reply 200 Examples.page_markup)
    by reflexivity.
  assert (H2 : is_error_status 200 = false) by reflexivity.
  destruct (select_one sel_sub_nav (soup_of (Examples.html_parser Examples.page_markup)))
    as [sub_nav|] eqn:H3; [|vm_compute in H3; discriminate].
  destruct (scrape_screener_data Examples.html_parser Examples.css_compile
              Examples.net1 Examples.page_url) as [requests [results|e]] eqn:H4;
    [|vm_compute in H4; discriminate].
  pose proof (@C6_company_id_and_commentary Examples.html_parser Examples.css_compile
                Examples.net1 Examples.page_url 200 Examples.page_markup sub_nav
                requests results H1 H2 H3 H4) as T.
  split; [exact H1|]. split; [exact H2|]. split; [exists sub_nav; reflexivity|].
  exists results.
  vm_compute in H3. injection H3 as <-.
  cbv zeta in T. destruct T as [_ [Tid Tc]].
  assert (E : find_company_id (soup_of (Examples.html_parser Examples.page_markup))
              = Some "12345") by (vm_compute; reflexivity).
  rewrite E in Tid, Tc. destruct Tc as [_ [_ [-> [st2 [txt2 [Hn [_ Hc]]]]]]].
  split; [reflexivity|]. split.
  - apply Tid. vm_compute. intros [H|[]]. discriminate.
  - rewrite Hc. vm_compute in Hn. injection Hn as <- <-. vm_compute. reflexivity.
Defined.

(** Two networks that agree on the page and on its commentary document
    and differ at another address. *)
Lemma run_depends_on_fetched_documents_example :
  Examples.net1 "https://example.org/" <> Examples.net2 "https://example.org/"
  /\ (forall u,
        In u (fst (scrape_screener_data Examples.html_parser Examples.css_compile
                                        Examples.net1 Examples.page_url)) ->
        Examples.net1 u = Examples.net2 u)
  /\ scrape_screener_data Examples.html_parser Examples.css_compile Examples.net1
                          Examples.page_url
     = scrape_screener_data Examples.html_parser Examples.css_compile Examples.net2
                            Examples.page_url.
Proof.
  assert (H : forall u,
            In u (fst (scrape_screener_data Examples.html_parser Examples.css_compile
                                            Examples.net1 Examples.page_url)) ->
            Examples.net1 u = Examples.net2 u).
  { intros u Hin. vm_compute in Hin.
    destruct Hin as [<-|[<-|[]]]; vm_compute; reflexivity. }
  split; [vm_compute; discriminate|]. split; [exact H|].
  exact (@run_depends_on_fetched_documents Examples.html_parser Examples.css_compile
           Examples.net1 Examples.net2 Examples.page_url H).
Defined.

(* ------------------------------------------------------------------ *)
(** * Further properties of the code *)

(** ** Tables and sections *)

Lemma row_texts_trimmed (row : tag) : Forall trimmed (row_texts row).
Proof.
  unfold row_texts. apply Forall_forall. intros s Hs.
  apply in_map_iff in Hs. destruct Hs as [c [<- _]]. apply get_text_trimmed.
Qed.

Lemma kept_rows_spec (rows : list tag) (row : list string) :
  In row (collect_rows rows []) ->
  Forall trimmed row /\ exists cell, In cell row /\ cell <> "".
Proof.
  rewrite collect_rows_filter. simpl. intros H.
  apply in_map_iff in H. destruct H as [r [<- Hr]].
  apply filter_In in Hr. destruct Hr as [_ Hr].
  split; [apply row_texts_trimmed|].
  rewrite <- any_item_row_texts in Hr. unfold any_item in Hr.
  apply existsb_exists in Hr. destruct Hr as [c [Hin Hc]].
  exists c. split; [exact Hin | apply PyStrFacts.truthy_true_iff, Hc].
Qed.

(** X1: every string of the Table [parse_table] returns is trimmed, and
    every row it returns has a cell that is not empty. *)
Theorem X1_table_strings_trimmed (t : tag) :
  parse_table (Some t)
  = VDict [("headers", vstrs (table_headers t)); ("rows", vrows (table_rows t))]
  /\ Forall trimmed (table_headers t)
  /\ forall row, In row (table_rows t) ->
                 Forall trimmed row /\ exists cell, In cell row /\ cell <> "".
Proof.
  split; [reflexivity|]. split.
  - unfold table_headers. destruct (select_one sel_thead_tr t); [|constructor].
    apply Forall_forall. intros s Hs. apply in_map_iff in Hs.
    destruct Hs as [c [<- _]]. apply get_text_trimmed.
  - intros row. unfold table_rows.
    destruct (select_one sel_tbody t); [apply kept_rows_spec | intros []].
Qed.

(** X2: the rows and the footer of the peer comparison are the rows of
    the table's first [tbody] and first [tfoot] that have a non-blank
    cell, in document order; blank rows are left out of both. *)
Theorem X2_peer_rows_and_footer (table : tag) :
  peer_rows table = map row_texts (filter row_nonblank (part_rows sel_tbody table))
  /\ peer_footer table
     = map row_texts (filter row_nonblank (part_rows sel_tfoot table))
  /\ forall row, In row (peer_rows table) \/ In row (peer_footer table) ->
                 Forall trimmed row /\ exists cell, In cell row /\ cell <> "".
Proof.
  unfold peer_rows, peer_footer, part_rows. split; [|split].
  - destruct (select_one sel_tbody table); [apply collect_rows_filter | reflexivity].
  - destruct (select_one sel_tfoot table); [apply collect_rows_filter | reflexivity].
  - intros row [H|H].
    + destruct (select_one sel_tbody table); [apply (kept_rows_spec _ _ H) | destruct H].
    + destruct (select_one sel_tfoot table); [apply (kept_rows_spec _ _ H) | destruct H].
Qed.

Lemma collect_ratios_flat_map (items : list tag) (acc : list value) :
  collect_ratios items acc = acc ++ flat_map (fun r => opt_list (ratio_entry r)) items.
Proof.
  revert acc. induction items as [|r rest IH]; intros acc; simpl.
  - rewrite app_nil_r. reflexivity.
  - unfold ratio_entry at 1.
    destruct (select_one sel_name r) as [name|];
      destruct (select_one sel_value r) as [val|]; simpl; rewrite IH;
      try reflexivity.
    rewrite <- app_assoc. reflexivity.
Qed.

(** X3: the top ratios hold one entry for each item of the ratio list
    that has both a name and a value element, in document order; an item
    that lacks either is left out. *)
Theorem X3_top_ratios_need_name_and_value (summary_soup : tag) :
  vget "top_ratios" (parse_summary_section summary_soup)
  = Some (VList (flat_map (fun r => opt_list (ratio_entry r))
                          (select sel_top_ratios summary_soup)))
  /\ forall r, ratio_entry r = None <->
               select_one sel_name r = None \/ select_one sel_value r = None.
Proof.
  split.
  - unfold parse_summary_section. simpl. rewrite collect_ratios_flat_map.
    reflexivity.
  - intros r. unfold ratio_entry.
    destruct (select_one sel_name r); destruct (select_one sel_value r);
      split; intros H; try reflexivity; try discriminate; auto.
    destruct H; discriminate.
Qed.

(** ** The keys and the entries of the growth metrics *)

Lemma keys_set {V : Type} (k : string) (v : V) (d : PyDict.t V) :
  exists extra,
    PyDict.keys (PyDict.set k v d) = PyDict.keys d ++ extra
    /\ ((extra = [] /\ In k (PyDict.keys d))
        \/ (extra = [k] /\ ~ In k (PyDict.keys d))).
Proof.
  unfold PyDict.keys. induction d as [|[k' v'] r IH]; simpl.
  - exists [k]. split; [reflexivity|]. right. split; [reflexivity | tauto].
  - destruct (String.eqb k k') eqn:E.
    + apply String.eqb_eq in E. subst k'. exists []. simpl.
      rewrite app_nil_r. split; [reflexivity|]. left. split; [reflexivity | tauto].
    + apply String.eqb_neq in E. destruct IH as [extra [Hk Hc]].
      exists extra. simpl. rewrite Hk. split; [reflexivity|].
      destruct Hc as [[-> Hin]|[-> Hni]]; [left | right]; split; try reflexivity.
      * right. exact Hin.
      * intros [H|H]; [congruence | tauto].
Qed.

Lemma keys_set_In {V : Type} (k k0 : string) (v : V) (d : PyDict.t V) :
  In k0 (PyDict.keys (PyDict.set k v d)) <-> In k0 (PyDict.keys d) \/ k0 = k.
Proof.
  destruct (keys_set k v d) as [extra [-> Hc]]. rewrite in_app_iff.
  destruct Hc as [[-> Hin]|[-> Hni]]; simpl; split; intros H.
  - tauto.
  - destruct H as [H | ->]; [left; exact H | left; exact Hin].
  - destruct H as [H|[H|[]]]; [left; exact H | right; congruence].
  - destruct H as [H | ->]; [left; exact H | right; left; reflexivity].
Qed.

Lemma keys_set_NoDup {V : Type} (k : string) (v : V) (d : PyDict.t V) :
  NoDup (PyDict.keys d) -> NoDup (PyDict.keys (PyDict.set k v d)).
Proof.
  intros Hnd. destruct (keys_set k v d) as [extra [-> Hc]].
  destruct Hc as [[-> Hin]|[-> Hni]].
  - rewrite app_nil_r. exact Hnd.
  - apply NoDup_app; [exact Hnd | repeat constructor; intros [] |].
    intros x Hx [<-|[]]. exact (Hni Hx).
Qed.

Lemma keys_view (st : Growth.state) :
  PyDict.keys (Growth.view st) = PyDict.keys (Growth.data st).
Proof.
  unfold Growth.view, Growth.view_of, PyDict.keys. rewrite map_map. reflexivity.
Qed.

Lemma data_growth_row (st : Growth.state) (row : tag) :
  Growth.data (Growth.growth_row st row)
  = match heading_of row with
    | Some h => PyDict.set h (List.length (Growth.heap st)) (Growth.data st)
    | None => Growth.data st
    end.
Proof.
  unfold Growth.growth_row, heading_of.
  destruct (find "th" row) as [th|]; simpl; [reflexivity|].
  destruct (find_all ["td"] row) as [|? [|? [|? ?]]]; try reflexivity.
  destruct (Growth.heading_text st); reflexivity.
Qed.

Lemma keys_growth_rows (rows : list tag) (st : Growth.state) :
  NoDup (PyDict.keys (Growth.data st)) ->
  NoDup (PyDict.keys (Growth.data (Growth.growth_rows st rows)))
  /\ forall h, In h (PyDict.keys (Growth.data (Growth.growth_rows st rows)))
               <-> In h (PyDict.keys (Growth.data st)) \/ In h (row_headings rows).
Proof.
  unfold Growth.growth_rows. revert st.
  induction rows as [|r rows IH]; intros st Hnd; simpl.
  - split; [exact Hnd | intros h; tauto].
  - assert (Hnd' : NoDup (PyDict.keys (Growth.data (Growth.growth_row st r)))).
    { rewrite data_growth_row. destruct (heading_of r); [|exact Hnd].
      apply keys_set_NoDup, Hnd. }
    destruct (IH _ Hnd') as [H1 H2]. split; [exact H1|].
    intros h. rewrite H2, data_growth_row, in_app_iff.
    destruct (heading_of r) as [h0|]; simpl.
    + rewrite keys_set_In. intuition congruence.
    + tauto.
Qed.

Lemma keys_growth_tables (tables : list (list tag)) (st : Growth.state) :
  NoDup (PyDict.keys (Growth.data st)) ->
  NoDup (PyDict.keys (Growth.data (Growth.growth_tables st tables)))
  /\ forall h, In h (PyDict.keys (Growth.data (Growth.growth_tables st tables)))
               <-> In h (PyDict.keys (Growth.data st)) \/ In h (all_headings tables).
Proof.
  unfold Growth.growth_tables. revert st.
  induction tables as [|t ts IH]; intros st Hnd; simpl.
  - split; [exact Hnd | intros h; tauto].
  - rewrite GrowthFacts.growth_table_eq.
    destruct (keys_growth_rows t (table_start st) Hnd) as [H1 H2].
    destruct (IH _ H1) as [H3 H4]. split; [exact H3|].
    intros h. rewrite H4, H2, in_app_iff. simpl. tauto.
Qed.

Lemma vkeys_export (d : PyDict.t (PyDict.t string)) :
  vkeys (Growth.export d) = PyDict.keys d.
Proof. unfold Growth.export, vkeys, PyDict.keys. rewrite map_map. reflexivity. Qed.

(** X5: the keys of the growth metrics are the texts of the heading rows
    of the section's group tables, each once: a heading gets its key also
    when no entry follows it, and nothing else becomes a key. *)
Theorem X5_growth_keys_are_headings (section_soup : tag) :
  NoDup (vkeys (parse_growth_tables section_soup))
  /\ forall h, In h (vkeys (parse_growth_tables section_soup))
               <-> In h (all_headings (Growth.tables_of section_soup)).
Proof.
  rewrite parse_growth_tables_eq, vkeys_export, keys_view.
  destruct (keys_growth_tables (Growth.tables_of section_soup) Growth.init)
    as [H1 H2]; [constructor|].
  split; [exact H1|]. intros h. rewrite H2. simpl. tauto.
Qed.

(** Every entry of every dict of the store: the label does not end in a
    colon and the value is trimmed. *)
Lemma entries_ok_set (l v : string) (m : PyDict.t string) :
  no_trailing_colon l -> trimmed v ->
  Forall (fun lv => no_trailing_colon (fst lv) /\ trimmed (snd lv)) m ->
  Forall (fun lv => no_trailing_colon (fst lv) /\ trimmed (snd lv)) (PyDict.set l v m).
Proof.
  intros Hl Hv H. induction H as [|[k x] r Hx Hr IH]; simpl.
  - constructor; [split; assumption | constructor].
  - destruct (String.eqb l k); constructor; try assumption.
    simpl in *. tauto.
Qed.

Lemma store_ok_update (P : PyDict.t string -> Prop) (hp : Growth.store)
    (r : Growth.ref) (m : PyDict.t string) :
  P m -> Forall P hp -> Forall P (Growth.update hp r m).
Proof.
  intros Hm H. revert r. induction H as [|x t Hx Ht IH]; intros [|r]; simpl;
    constructor; auto.
Qed.

Lemma store_ok_deref (P : PyDict.t string -> Prop) (hp : Growth.store)
    (r : Growth.ref) :
  P [] -> Forall P hp -> P (Growth.deref hp r).
Proof.
  intros H0 H. unfold Growth.deref. revert r.
  induction H as [|x t Hx Ht IH]; intros [|r]; simpl; auto.
Qed.

Lemma rstrip_colon_ok (s : string) : no_trailing_colon (PyStr.rstrip_colon s).
Proof.
  unfold no_trailing_colon, PyStr.rstrip_colon. intros H.
  apply rstrip_by_last in H. discriminate.
Qed.

Lemma store_ok_growth_row (st : Growth.state) (row : tag) :
  Forall (Forall (fun lv => no_trailing_colon (fst lv) /\ trimmed (snd lv)))
         (Growth.heap st) ->
  Forall (Forall (fun lv => no_trailing_colon (fst lv) /\ trimmed (snd lv)))
         (Growth.heap (Growth.growth_row st row)).
Proof.
  intros H. unfold Growth.growth_row.
  destruct (find "th" row) as [th|]; simpl.
  - apply Forall_app. split; [exact H | repeat constructor].
  - destruct (find_all ["td"] row) as [|td0 [|td1 [|? ?]]]; try exact H.
    destruct (Growth.heading_text st); [|exact H]. simpl.
    apply store_ok_update; [|exact H].
    apply entries_ok_set;
      [apply rstrip_colon_ok | apply get_text_trimmed |].
    apply store_ok_deref; [constructor | exact H].
Qed.

Lemma store_ok_growth_tables (tables : list (list tag)) (st : Growth.state) :
  Forall (Forall (fun lv => no_trailing_colon (fst lv) /\ trimmed (snd lv)))
         (Growth.heap st) ->
  Forall (Forall (fun lv => no_trailing_colon (fst lv) /\ trimmed (snd lv)))
         (Growth.heap (Growth.growth_tables st tables)).
Proof.
  unfold Growth.growth_tables. revert st.
  induction tables as [|t ts IH]; intros st H; simpl; [exact H|].
  apply IH. rewrite GrowthFacts.growth_table_eq. unfold Growth.growth_rows.
  assert (H0 : Forall (Forall (fun lv => no_trailing_colon (fst lv) /\ trimmed (snd lv)))
                      (Growth.heap (table_start st))).
  { simpl. apply Forall_app. split; [exact H | repeat constructor]. }
  revert H0. generalize (table_start st).
  induction t as [|r rows IHr]; intros s Hs; simpl; [exact Hs|].
  apply IHr, store_ok_growth_row, Hs.
Qed.

(** X6: in the growth metrics no period label ends in a colon and every
    value is trimmed, under every heading. *)
Theorem X6_growth_labels_and_values (section_soup : tag) :
  parse_growth_tables section_soup
  = Growth.export
      (Growth.view (Growth.growth_tables Growth.init (Growth.tables_of section_soup)))
  /\ forall h m l v,
       In (h, m)
          (Growth.view
             (Growth.growth_tables Growth.init (Growth.tables_of section_soup))) ->
       In (l, v) m ->
       no_trailing_colon l /\ trimmed v.
Proof.
  split; [apply parse_growth_tables_eq|].
  intros h m l v Hm Hl.
  pose proof (store_ok_growth_tables (Growth.tables_of section_soup) Growth.init)
    as H. specialize (H (Forall_nil _)).
  unfold Growth.view, Growth.view_of in Hm. apply in_map_iff in Hm.
  destruct Hm as [[k r] [[= <- <-] _]].
  pose proof (@store_ok_deref _ _ r (Forall_nil _) H) as Hd.
  rewrite Forall_forall in Hd. apply (Hd (l, v) Hl).
Qed.

(** ** The company identifier, both ways *)

Lemma prefix_app (p x : string) : String.prefix p (p ++ x) = true.
Proof.
  induction p as [|a p IH]; simpl.
  - destruct x; reflexivity.
  - destruct (Ascii.ascii_dec a a) as [_|H]; [exact IH | exfalso; apply H; reflexivity].
Qed.

Lemma drop_length_app (p x : string) : drop (String.length p) (p ++ x) = x.
Proof. induction p as [|a p IH]; simpl; [reflexivity | exact IH]. Qed.

Lemma span_digits_quote (d b : string) :
  PyStr.all_chars isdigit d = true ->
  span_digits (d ++ dquote ++ b) = (d, (dquote ++ b)%string).
Proof.
  induction d as [|c d IH]; intros H; [reflexivity|].
  simpl in H. apply andb_true_iff in H. destruct H as [Hc Hd].
  change (String c d ++ dquote ++ b)%string with (String c (d ++ dquote ++ b)).
  cbn [span_digits]. rewrite Hc, (IH Hd). reflexivity.
Qed.

Lemma append_assoc (a b c : string) : ((a ++ b) ++ c = a ++ (b ++ c))%string.
Proof. induction a as [|x a IH]; simpl; [reflexivity | rewrite IH; reflexivity]. Qed.

(** The pattern matches where it stands. *)
Lemma match_id_here_complete (d b : string) :
  is_digits d ->
  match_id_here (id_marker ++ d ++ dquote ++ b) = Some d.
Proof.
  intros [Ht Hd]. unfold match_id_here.
  rewrite prefix_app, drop_length_app, (@span_digits_quote d b Hd), Ht, prefix_app.
  reflexivity.
Qed.

Lemma search_company_id_complete (a x : string) :
  match_id_here x <> None -> search_company_id (a ++ x) <> None.
Proof.
  intros Hx. induction a as [|c a IH].
  - change ("" ++ x)%string with x.
    destruct x as [|c x]; cbn [search_company_id];
      destruct (match_id_here _) eqn:E; congruence.
  - change (String c a ++ x)%string with (String c (a ++ x)).
    cbn [search_company_id]. destruct (match_id_here (String c (a ++ x)));
      [discriminate | exact IH].
Qed.

Lemma first_company_id_complete (style_tags : list tag) (st : tag) :
  In st style_tags -> search_company_id (text st) <> None ->
  first_company_id style_tags <> None.
Proof.
  induction style_tags as [|t l IH]; simpl; [tauto|].
  intros [->|Hin] Hs.
  - destruct (search_company_id (text st)); [discriminate | congruence].
  - destruct (search_company_id (text t)); [discriminate | apply IH; assumption].
Qed.

(** What holds of an identifier the page yields. *)
Lemma company_id_sound (soup : tag) (d : string) :
  find_company_id soup = Some d ->
  is_digits d /\ id_or_na (Some d) = d
  /\ exists st a b,
       In st (find_all ["style"] soup)
       /\ text st = (a ++ id_marker ++ d ++ dquote ++ b)%string.
Proof.
  unfold find_company_id. intros E.
  pose proof (first_company_id_spec (find_all ["style"] soup)) as H.
  rewrite E in H.
  destruct H as [Ht [before [st [after [Hl [_ Hs]]]]]].
  apply search_company_id_leftmost in Hs. destruct Hs as [a [x [Htext [Hm _]]]].
  apply match_id_here_sound in Hm. destruct Hm as [_ [Hd [b Hx]]].
  split; [split; assumption|]. split; [simpl; rewrite Ht; reflexivity|].
  exists st, a, b. split.
  - rewrite Hl. apply in_or_app. right. left. reflexivity.
  - rewrite Htext, Hx. reflexivity.
Qed.

(** X7: an identifier the page yields is a non-empty string of decimal
    digits that stands in the text of a style block between the marker
    [id_marker] and a closing quote; [company_id] is that string, and the
    literal "N/A" when there is none. *)
Theorem X7_company_id_is_digits (soup : tag) :
  match find_company_id soup with
  | Some d =>
      is_digits d /\ id_or_na (Some d) = d
      /\ exists st a b,
           In st (find_all ["style"] soup)
           /\ text st = (a ++ id_marker ++ d ++ dquote ++ b)%string
  | None => id_or_na None = "N/A"
  end.
Proof.
  destruct (find_company_id soup) as [d|] eqn:E; [|reflexivity].
  apply company_id_sound, E.
Qed.

(** X8: when some style block of the page holds the marker, digits and a
    closing quote, an identifier is found: [company_id] is "N/A" only when
    no style block holds the pattern. *)
Theorem X8_company_id_found_when_present
    (soup st : tag) (a d b : string) :
  In st (find_all ["style"] soup) ->
  text st = (a ++ id_marker ++ d ++ dquote ++ b)%string ->
  is_digits d ->
  exists found, find_company_id soup = Some found /\ is_digits found
                /\ id_or_na (find_company_id soup) = found.
Proof.
  intros Hin Htext Hd.
  assert (Hne : find_company_id soup <> None).
  { unfold find_company_id. apply (@first_company_id_complete _ st Hin).
    rewrite Htext. apply search_company_id_complete.
    rewrite (@match_id_here_complete d b Hd). discriminate. }
  destruct (find_company_id soup) as [found|] eqn:E; [|congruence].
  destruct (@company_id_sound soup found E) as [H1 [H2 _]].
  exists found. auto.
Qed.

(** ** The shape of the result and the requests of a run *)

Section RunFacts.
Variable html_parser : string -> list node.
Variable css_compile : string -> option selector.

(** The loop over the links appends keys, all of them labels of links,
    and keeps the keys distinct. *)
Lemma dispatch_links_keys (soup : tag) (nav_links : list tag)
    (results results' : results_t) :
  dispatch_links css_compile soup nav_links results = Returned results' ->
  exists extra,
    PyDict.keys results' = PyDict.keys results ++ extra
    /\ Forall (fun k => In k (nav_labels nav_links)) extra
    /\ (NoDup (PyDict.keys results) -> NoDup (PyDict.keys results')).
Proof.
  revert results. induction nav_links as [|link rest IH]; intros results; simpl.
  - intros [= <-]. exists []. rewrite app_nil_r. auto.
  - assert (Hweak : forall r0,
              dispatch_links css_compile soup rest r0 = Returned results' ->
              exists extra,
                PyDict.keys results' = PyDict.keys r0 ++ extra
                /\ Forall (fun k => In k (nav_labels (link :: rest))) extra
                /\ (NoDup (PyDict.keys r0) -> NoDup (PyDict.keys results'))).
    { intros r0 H. destruct (IH _ H) as [extra [Hk [Hf Hn]]].
      exists extra. split; [exact Hk|]. split; [|exact Hn].
      eapply Forall_impl; [|exact Hf]. intros k Hin. unfold nav_labels in *.
      simpl. apply in_or_app. right. exact Hin. }
    assert (Hstep : forall v l,
              link_label_of link = Some l ->
              dispatch_links css_compile soup rest (PyDict.set l v results)
              = Returned results' ->
              exists extra,
                PyDict.keys results' = PyDict.keys results ++ extra
                /\ Forall (fun k => In k (nav_labels (link :: rest))) extra
                /\ (NoDup (PyDict.keys results) -> NoDup (PyDict.keys results'))).
    { intros v l Hl H. destruct (Hweak _ H) as [extra [Hk [Hf Hn]]].
      destruct (keys_set l v results) as [e1 [Hk1 Hc]].
      exists (e1 ++ extra).
      split; [rewrite Hk, Hk1, app_assoc; reflexivity|].
      split.
      - apply Forall_app. split; [|exact Hf].
        destruct Hc as [[-> _]|[-> _]]; constructor; [|constructor].
        unfold nav_labels. simpl. rewrite Hl. left. reflexivity.
      - intros Hnd. apply Hn, keys_set_NoDup, Hnd. }
    unfold link_label_of in Hstep.
    destruct (attr "href" link) as [href|]; [|discriminate].
    destruct (negb (PyStr.startswith "#" href)); [apply Hweak|].
    destruct (negb (PyStr.truthy (PyStr.lstrip_hash href))); [apply Hweak|].
    cbv zeta in *.
    destruct (resolve_section css_compile (PyStr.lstrip_hash href) soup)
      as [[section_tag|]|e]; [| apply Hweak | discriminate].
    destruct (parser_for _ _); intros H; eapply Hstep; try reflexivity; exact H.
Qed.

Section RunNet.
Variable http_get : string -> reply.

Local Abbreviation scrape := (scrape_screener_data html_parser css_compile http_get).

(** X9: the result of a run always starts with [company_name] and
    [company_id], its keys are distinct, and every further key is the
    label of a navigation link, [growth_metrics] or [commentary]. *)
Theorem X9_result_keys (url : string) (st : nat) (txt : string)
    (requests : list string) (results : results_t) :
  http_get url = Reply st txt ->
  scrape url = (requests, Returned results) ->
  exists rest,
    PyDict.keys results = "company_name" :: "company_id" :: rest
    /\ NoDup (PyDict.keys results)
    /\ Forall (fun k => In k (page_labels (soup_of (html_parser txt)))
                        \/ k = "growth_metrics" \/ k = "commentary") rest.
Proof.
  intros Hget Hrun. unfold scrape_screener_data in Hrun. rewrite Hget in Hrun.
  destruct (is_error_status st); [discriminate|].
  set (soup := soup_of (html_parser txt)) in *.
  assert (Hnd0 : NoDup (PyDict.keys (name_and_id soup))).
  { simpl. repeat constructor; simpl; [intros [H|[]]; discriminate | tauto]. }
  unfold scrape_soup, page_labels in *.
  destruct (select_one sel_sub_nav soup) as [sub_nav|].
  - destruct (dispatch_links css_compile soup (find_all_with_attr "a" "href" sub_nav)
                (name_and_id soup)) as [r0|e] eqn:Hd; [|discriminate].
    destruct (dispatch_links_keys _ _ _ Hd) as [e0 [Hk0 [Hf0 Hn0]]].
    specialize (Hn0 Hnd0).
    set (r1 := match select_one sel_growth_div soup with
               | Some growth_div =>
                   PyDict.set "growth_metrics" (parse_growth_tables growth_div) r0
               | None => r0
               end) in Hrun.
    assert (H1 : exists e1, PyDict.keys r1 = PyDict.keys r0 ++ e1
                            /\ Forall (fun k => k = "growth_metrics") e1
                            /\ NoDup (PyDict.keys r1)).
    { unfold r1. destruct (select_one sel_growth_div soup) as [g|].
      - destruct (keys_set "growth_metrics" (parse_growth_tables g) r0)
          as [e1 [Hk Hc]].
        exists e1. split; [exact Hk|]. split; [|apply keys_set_NoDup, Hn0].
        destruct Hc as [[-> _]|[-> _]];
          [constructor | constructor; [reflexivity | constructor]].
      - exists []. rewrite app_nil_r. auto. }
    destruct H1 as [e1 [Hk1 [Hf1 Hn1]]].
    assert (Hfin : forall v, results = PyDict.set "commentary" v r1 ->
              exists rest,
                PyDict.keys results = "company_name" :: "company_id" :: rest
                /\ NoDup (PyDict.keys results)
                /\ Forall (fun k =>
                     In k (nav_labels (find_all_with_attr "a" "href" sub_nav))
                     \/ k = "growth_metrics" \/ k = "commentary") rest).
    { intros v ->. destruct (keys_set "commentary" v r1) as [e2 [Hk2 Hc]].
      exists (e0 ++ e1 ++ e2).
      split; [rewrite Hk2, Hk1, Hk0; simpl; rewrite <- !app_assoc; reflexivity|].
      split; [apply keys_set_NoDup, Hn1|].
      apply Forall_app. split; [eapply Forall_impl; [|exact Hf0]; simpl; tauto|].
      apply Forall_app. split; [eapply Forall_impl; [|exact Hf1]; simpl; tauto|].
      destruct Hc as [[-> _]|[-> _]];
        [constructor | constructor; [right; right; reflexivity | constructor]]. }
    destruct (find_company_id soup) as [cid|].
    + destruct (PyStr.truthy cid).
      * destruct (fetch_commentary_data html_parser http_get cid) as [c|e];
          [|discriminate].
        injection Hrun as _ <-. eapply Hfin. reflexivity.
      * injection Hrun as _ <-. eapply Hfin. reflexivity.
    + injection Hrun as _ <-. eapply Hfin. reflexivity.
  - injection Hrun as _ <-. exists []. split; [reflexivity|].
    split; [exact Hnd0 | constructor].
Qed.

(** X10: on a page with navigation list and identifier, a commentary
    request that fails makes the whole run fail: no result is returned,
    whatever the sections gave. *)
Theorem X10_commentary_failure_is_fatal (url : string) (st : nat) (txt cid : string)
    (sub_nav : tag) :
  http_get url = Reply st txt ->
  is_error_status st = false ->
  select_one sel_sub_nav (soup_of (html_parser txt)) = Some sub_nav ->
  find_company_id (soup_of (html_parser txt)) = Some cid ->
  (http_get (commentary_url cid) = NoReply
   \/ exists st2 txt2, http_get (commentary_url cid) = Reply st2 txt2
                       /\ is_error_status st2 = true) ->
  exists e, snd (scrape url) = Raised e.
Proof.
  intros Hget Hst Hnav Hid Hfail.
  unfold scrape_screener_data, scrape_soup. rewrite Hget, Hst, Hnav, Hid.
  destruct (dispatch_links css_compile _ _ _) as [r0|e]; [|simpl; eauto].
  destruct (company_id_sound _ Hid) as [[Ht _] _]. rewrite Ht.
  unfold fetch_commentary_data.
  destruct Hfail as [->|[st2 [txt2 [-> ->]]]]; simpl; eauto.
Qed.

(** X11: a run requests the page first and at most one more document,
    the commentary of an identifier made of decimal digits only; it never
    requests anything else. *)
Theorem X11_requests_of_a_run (url : string) :
  fst (scrape url) = [url]
  \/ exists cid, is_digits cid /\ fst (scrape url) = [url; commentary_url cid].
Proof.
  unfold scrape_screener_data.
  destruct (http_get url) as [|st txt]; [left; reflexivity|].
  destruct (is_error_status st); [left; reflexivity|].
  unfold scrape_soup.
  destruct (select_one sel_sub_nav _); [|left; reflexivity].
  destruct (dispatch_links css_compile _ _ _); [|left; reflexivity].
  destruct (find_company_id (soup_of (html_parser txt))) as [cid|] eqn:Hid;
    [|left; reflexivity].
  destruct (company_id_sound _ Hid) as [Hd _].
  destruct (PyStr.truthy cid); [|left; reflexivity].
  right. exists cid. split; [exact Hd|].
  destruct (fetch_commentary_data html_parser http_get cid); reflexivity.
Qed.

(** X12: on a page with navigation list on which the run returns, the
    growth metrics of the first grid-styled block are in the result
    whatever the links are called; without such a block there is no
    [growth_metrics] entry unless a link carries that label. *)
Theorem X12_growth_metrics_entry (url : string) (st : nat) (txt : string)
    (sub_nav : tag) (requests : list string) (results : results_t) :
  http_get url = Reply st txt ->
  select_one sel_sub_nav (soup_of (html_parser txt)) = Some sub_nav ->
  scrape url = (requests, Returned results) ->
  match select_one sel_growth_div (soup_of (html_parser txt)) with
  | Some growth_div =>
      PyDict.get "growth_metrics" results = Some (parse_growth_tables growth_div)
  | None =>
      ~ In "growth_metrics" (nav_labels (find_all_with_attr "a" "href" sub_nav)) ->
      PyDict.get "growth_metrics" results = None
  end.
Proof.
  intros Hget Hnav Hrun. unfold scrape_screener_data in Hrun. rewrite Hget in Hrun.
  destruct (is_error_status st); [discriminate|].
  set (soup := soup_of (html_parser txt)) in *.
  unfold scrape_soup in Hrun. rewrite Hnav in Hrun.
  destruct (dispatch_links css_compile soup (find_all_with_attr "a" "href" sub_nav)
              (name_and_id soup)) as [r0|e] eqn:Hd; [|discriminate].
  set (r1 := match select_one sel_growth_div soup with
             | Some growth_div =>
                 PyDict.set "growth_metrics" (parse_growth_tables growth_div) r0
             | None => r0
             end) in Hrun.
  assert (Hres : exists v, results = PyDict.set "commentary" v r1).
  { destruct (find_company_id soup) as [cid|].
    - destruct (PyStr.truthy cid).
      + destruct (fetch_commentary_data html_parser http_get cid); [|discriminate].
        injection Hrun as _ <-. eauto.
      + injection Hrun as _ <-. eauto.
    - injection Hrun as _ <-. eauto. }
  destruct Hres as [v ->]. rewrite PyDictFacts.get_set_other by discriminate.
  unfold r1. destruct (select_one sel_growth_div soup) as [g|].
  - apply PyDictFacts.get_set_same.
  - intros Hni. rewrite (@dispatch_links_get_other css_compile soup _ _ _ _ Hd Hni).
    reflexivity.
Qed.

End RunNet.
End RunFacts.

(** ** The file name of the driver *)

Lemma isalnum_not_underscore (c : ascii) : isalnum c = true -> c <> "_"%char.
Proof. intros H ->. vm_compute in H. discriminate. Qed.

Lemma sub_non_alnum_chars (b : bool) (s : string) :
  PyStr.all_chars (fun c => isalnum c || Ascii.eqb c "_") (sub_non_alnum b s) = true.
Proof.
  revert b. induction s as [|c r IH]; intros b; simpl; [reflexivity|].
  destruct (isalnum c) eqn:E; simpl.
  - rewrite E. simpl. apply IH.
  - destruct b; simpl; apply IH.
Qed.

Lemma sub_non_alnum_in_run_head (s : string) :
  PyStr.first_char (sub_non_alnum true s) <> Some "_"%char.
Proof.
  induction s as [|c r IH]; simpl; [discriminate|].
  destruct (isalnum c) eqn:E; [|exact IH].
  simpl. intros [= ->]. vm_compute in E. discriminate.
Qed.

Lemma sub_non_alnum_no_double (b : bool) (s a rest : string) :
  sub_non_alnum b s <> (a ++ "__" ++ rest)%string.
Proof.
  revert b a. induction s as [|c r IH]; intros b a; simpl.
  - destruct a; discriminate.
  - destruct (isalnum c) eqn:E.
    + destruct a as [|x a]; simpl.
      * intros [= -> _]. vm_compute in E. discriminate.
      * intros [= _ H]. exact (IH _ _ H).
    + destruct b; [apply IH|].
      destruct a as [|x a]; simpl.
      * intros [= H]. apply (sub_non_alnum_in_run_head r). rewrite H. reflexivity.
      * intros [= _ H]. exact (IH _ _ H).
Qed.

Lemma all_chars_impl (p q : ascii -> bool) (s : string) :
  (forall c, p c = true -> q c = true) ->
  PyStr.all_chars p s = true -> PyStr.all_chars q s = true.
Proof.
  intros Hpq. induction s as [|c r IH]; simpl; [reflexivity|].
  intros H. apply andb_true_iff in H. destruct H as [H1 H2].
  rewrite (Hpq _ H1), (IH H2). reflexivity.
Qed.

(** X13: the company name that goes into the file name holds only
    letters, digits and underscores and never two underscores in a row;
    the file name holds only those and dots, so no path separator. *)
Theorem X13_file_name_is_safe (company_name : string) :
  PyStr.all_chars (fun c => isalnum c || Ascii.eqb c "_")
                  (safe_company_name company_name) = true
  /\ (forall a rest, safe_company_name company_name <> (a ++ "__" ++ rest)%string)
  /\ PyStr.all_chars filename_char (output_filename company_name) = true.
Proof.
  split; [apply sub_non_alnum_chars|]. split; [intros a rest; apply sub_non_alnum_no_double|].
  unfold output_filename. rewrite !PyStrFacts.all_chars_append.
  apply andb_true_iff. split; [reflexivity|].
  apply andb_true_iff. split; [|reflexivity].
  apply (all_chars_impl (fun c => isalnum c || Ascii.eqb c "_")).
  - intros c H. unfold filename_char. rewrite H. reflexivity.
  - apply sub_non_alnum_chars.
Qed.

Lemma sub_non_alnum_keeps (b : bool) (s : string) :
  keep_chars isalnum (sub_non_alnum b s) = keep_chars isalnum s.
Proof.
  revert b. induction s as [|c r IH]; intros b; simpl; [reflexivity|].
  destruct (isalnum c) eqn:E; simpl.
  - rewrite E, IH. reflexivity.
  - destruct b; simpl; apply IH.
Qed.

Lemma sub_non_alnum_twice (s : string) :
  sub_non_alnum false (sub_non_alnum false s) = sub_non_alnum false s
  /\ sub_non_alnum false (sub_non_alnum true s) = sub_non_alnum true s
  /\ sub_non_alnum true (sub_non_alnum true s) = sub_non_alnum true s.
Proof.
  induction s as [|c r [IH1 [IH2 IH3]]]; simpl; [auto|].
  destruct (isalnum c) eqn:E; simpl.
  - rewrite E, IH1. auto.
  - rewrite IH3. auto.
Qed.

(** X14: cleaning the company name keeps its letters and digits, in
    order, and cleaning a cleaned name changes nothing. *)
Theorem X14_clean_name_keeps_alphanumerics (company_name : string) :
  keep_chars isalnum (safe_company_name company_name)
  = keep_chars isalnum company_name
  /\ safe_company_name (safe_company_name company_name)
     = safe_company_name company_name.
Proof.
  split; [apply sub_non_alnum_keeps | apply sub_non_alnum_twice].
Qed.

(** ** The commentary mapping and the section entries *)

Lemma Forall_set {V : Type} (P : string * V -> Prop) (k : string) (v : V)
    (d : PyDict.t V) :
  P (k, v) -> (forall k' v', P (k', v') -> k' = k -> P (k', v)) ->
  Forall P d -> Forall P (PyDict.set k v d).
Proof.
  intros Hkv Hsame H. induction H as [|[k' v'] r Hx Hr IH]; simpl.
  - constructor; [exact Hkv | constructor].
  - destruct (String.eqb k k') eqn:E; constructor; try assumption.
    apply String.eqb_eq in E. subst k'. exact Hkv.
Qed.

Lemma commentary_loop_inv (P : string * string -> Prop) (headings : list tag)
    (acc : PyDict.t string) :
  (forall heading body,
      In heading headings ->
      find_next_sibling "div" "sub" heading = Some body ->
      P (text_strip heading, text_spaced body)) ->
  Forall P acc -> NoDup (PyDict.keys acc) ->
  Forall P (commentary_loop headings acc)
  /\ NoDup (PyDict.keys (commentary_loop headings acc)).
Proof.
  revert acc. induction headings as [|hd rest IH]; intros acc HP Hacc Hnd; simpl.
  - auto.
  - destruct (find_next_sibling "div" "sub" hd) as [body|] eqn:E.
    + apply IH.
      * intros h b Hin. apply HP. right. exact Hin.
      * apply Forall_set; [apply HP; [left; reflexivity | exact E] | | exact Hacc].
        intros k' v' _ ->. apply HP; [left; reflexivity | exact E].
      * apply keys_set_NoDup, Hnd.
    + apply IH; [|exact Hacc | exact Hnd].
      intros h b Hin. apply HP. right. exact Hin.
Qed.

Section CommentaryShape.
Variable html_parser : string -> list node.

(** X15: the commentary mapping has distinct keys; every entry pairs the
    trimmed text of a heading node with the text of that node's first later
    body block, and key and value are both trimmed. *)
Theorem X15_commentary_entries (commentary_html : string) :
  let soup := soup_of (html_parser commentary_html) in
  let out := parse_commentary_html html_parser commentary_html in
  NoDup (PyDict.keys out)
  /\ Forall (fun kv =>
               trimmed (fst kv) /\ trimmed (snd kv)
               /\ exists heading body,
                    In heading (select sel_commentary_heading soup)
                    /\ find_next_sibling "div" "sub" heading = Some body
                    /\ fst kv = text_strip heading
                    /\ snd kv = text_spaced body) out.
Proof.
  intros soup out. unfold out, parse_commentary_html, parse_commentary_soup.
  fold soup.
  destruct (@commentary_loop_inv
              (fun kv =>
                 trimmed (fst kv) /\ trimmed (snd kv)
                 /\ exists heading body,
                      In heading (select sel_commentary_heading soup)
                      /\ find_next_sibling "div" "sub" heading = Some body
                      /\ fst kv = text_strip heading
                      /\ snd kv = text_spaced body)
              (select sel_commentary_heading soup) []) as [H1 H2].
  - intros heading body Hin Hb. simpl.
    split; [apply get_text_trimmed|]. split; [apply get_text_trimmed|].
    exists heading, body. auto.
  - constructor.
  - constructor.
  - split; assumption.
Qed.

End CommentaryShape.

Section DispatchFacts.
Variable css_compile : string -> option selector.

(** The loop over two lists of links one after the other. *)
Lemma dispatch_links_app (soup : tag) (first second : list tag) (results : results_t) :
  dispatch_links css_compile soup (first ++ second) results
  = match dispatch_links css_compile soup first results with
    | Returned r => dispatch_links css_compile soup second r
    | Raised e => Raised e
    end.
Proof.
  revert results. induction first as [|link rest IH]; intros results; simpl;
    [reflexivity|].
  destruct (attr "href" link) as [href|]; [|reflexivity].
  destruct (negb (PyStr.startswith "#" href)); [apply IH|].
  destruct (negb (PyStr.truthy (PyStr.lstrip_hash href))); [apply IH|].
  cbv zeta.
  destruct (resolve_section css_compile (PyStr.lstrip_hash href) soup)
    as [[section_tag|]|e]; [| apply IH | reflexivity].
  destruct (parser_for _ _); apply IH.
Qed.

Lemma link_target_label (link : tag) (label section_id : string) :
  link_target link = Some (label, section_id) -> link_label_of link = Some label.
Proof.
  unfold link_target, link_label_of.
  destruct (attr "href" link) as [href|]; [|discriminate].
  destruct (negb (PyStr.startswith "#" href)); [discriminate|].
  destruct (negb (PyStr.truthy (PyStr.lstrip_hash href))); [discriminate|].
  cbv zeta. intros [= <- _]. reflexivity.
Qed.

(** X16: when the loop over the links returns, the entry under the label
    of a link whose section was found is what the parser registered for
    the label, or else for the section id, makes of that section, or the
    "no specialized parser" placeholder when neither is registered,
    provided no later link carries the same label. *)
Theorem X16_section_entry_of_a_link
    (soup : tag) (before : list tag) (link : tag) (after : list tag)
    (label section_id : string) (section_tag : tag) (results results' : results_t) :
  link_target link = Some (label, section_id) ->
  resolve_section css_compile section_id soup = Returned (Some section_tag) ->
  ~ In label (nav_labels after) ->
  dispatch_links css_compile soup (before ++ link :: after) results
  = Returned results' ->
  PyDict.get label results' = Some (section_entry label section_id section_tag).
Proof.
  intros Ht Hres Hni Hrun. rewrite dispatch_links_app in Hrun.
  destruct (dispatch_links css_compile soup before results) as [r0|e];
    [|discriminate].
  cbn [dispatch_links] in Hrun. unfold link_target in Ht.
  destruct (attr "href" link) as [href|]; [|discriminate].
  destruct (negb (PyStr.startswith "#" href)); [discriminate|].
  destruct (negb (PyStr.truthy (PyStr.lstrip_hash href))); [discriminate|].
  cbv zeta in *. injection Ht as Hl Hs. subst label section_id.
  rewrite Hres in Hrun. unfold section_entry.
  destruct (parser_for _ _);
    rewrite (@dispatch_links_get_other css_compile soup _ _ _ _ Hrun Hni);
    apply PyDictFacts.get_set_same.
Qed.

End DispatchFacts.

(** ** The further statements on the example documents *)

(** The style block of the example page holds the id 12345. *)
Lemma X8_company_id_found_when_present_witness :
  In MoreExamples.page_style_tag (find_all ["style"] (soup_of Examples.page_nodes))
  /\ exists found,
       find_company_id (soup_of Examples.page_nodes) = Some found
       /\ is_digits found
       /\ id_or_na (find_company_id (soup_of Examples.page_nodes)) = found.
Proof.
  assert (H1 : In MoreExamples.page_style_tag
                  (find_all ["style"] (soup_of Examples.page_nodes)))
    by (vm_compute; left; reflexivity).
  assert (H2 : text MoreExamples.page_style_tag
               = ("tr[" ++ id_marker ++ "12345" ++ dquote ++ "] td { color: red }")%string)
    by (vm_compute; reflexivity).
  assert (H3 : is_digits "12345") by (split; reflexivity).
  split; [exact H1|].
  exact (@X8_company_id_found_when_present (soup_of Examples.page_nodes)
           MoreExamples.page_style_tag "tr[" "12345" "] td { color: red }" H1 H2 H3).
Defined.

(** The result of the end-to-end example has four distinct keys. *)
Lemma X9_result_keys_witness :
  Examples.net1 Examples.page_url = Reply 200 Examples.page_markup
  /\ exists results rest,
       scrape_screener_data Examples.html_parser Examples.css_compile Examples.net1
                            Examples.page_url
       = ([Examples.page_url; commentary_url "12345"], Returned results)
       /\ PyDict.keys results = "company_name" :: "company_id" :: rest
       /\ NoDup (PyDict.keys results).
Proof.
  assert (H1 : Examples.net1 Examples.page_url = Reply 200 Examples.page_markup)
    by reflexivity.
  split; [exact H1|].
  destruct (scrape_screener_data Examples.html_parser Examples.css_compile
              Examples.net1 Examples.page_url) as [requests [results|e]] eqn:H2;
    [|vm_compute in H2; discriminate].
  destruct (@X9_result_keys Examples.html_parser Examples.css_compile Examples.net1
              Examples.page_url 200 Examples.page_markup requests results H1 H2)
    as [rest [Hk [Hn _]]].
  exists results, rest. split; [|split; assumption].
  vm_compute in H2. injection H2 as <- <-. reflexivity.
Defined.

(** The commentary document of the example page is missing: the run
    fails. *)
Lemma X10_commentary_failure_is_fatal_witness :
  MoreExamples.net_no_commentary Examples.page_url = Reply 200 Examples.page_markup
  /\ MoreExamples.net_no_commentary (commentary_url "12345") = Reply 404 ""
  /\ exists e,
       snd (scrape_screener_data Examples.html_parser Examples.css_compile
                                 MoreExamples.net_no_commentary Examples.page_url)
       = Raised e.
Proof.
  assert (H1 : MoreExamples.net_no_commentary Examples.page_url
               = Reply 200 Examples.page_markup) by reflexivity.
  assert (H2 : is_error_status 200 = false) by reflexivity.
  destruct (select_one sel_sub_nav (soup_of (Examples.html_parser Examples.page_markup)))
    as [sub_nav|] eqn:H3; [|vm_compute in H3; discriminate].
  assert (H4 : find_company_id (soup_of (Examples.html_parser Examples.page_markup))
               = Some "12345") by (vm_compute; reflexivity).
  assert (H5 : MoreExamples.net_no_commentary (commentary_url "12345") = Reply 404 "")
    by (vm_compute; reflexivity).
  split; [exact H1|]. split; [exact H5|].
  apply (@X10_commentary_failure_is_fatal Examples.html_parser Examples.css_compile
           MoreExamples.net_no_commentary Examples.page_url 200 Examples.page_markup
           "12345" sub_nav H1 H2 H3 H4).
  right. exists 404, "". split; [exact H5 | reflexivity].
Defined.

(** The example page has no grid-styled block and no link of that label:
    no growth metrics in its result. *)
Lemma X12_growth_metrics_entry_witness :
  exists results,
    scrape_screener_data Examples.html_parser Examples.css_compile Examples.net1
                         Examples.page_url
    = ([Examples.page_url; commentary_url "12345"], Returned results)
    /\ PyDict.get "growth_metrics" results = None.
Proof.
  assert (H1 : Examples.net1 Examples.page_url = Reply 200 Examples.page_markup)
    by reflexivity.
  destruct (select_one sel_sub_nav (soup_of (Examples.html_parser Examples.page_markup)))
    as [sub_nav|] eqn:H2; [|vm_compute in H2; discriminate].
  destruct (scrape_screener_data Examples.html_parser Examples.css_compile
              Examples.net1 Examples.page_url) as [requests [results|e]] eqn:H3;
    [|vm_compute in H3; discriminate].
  pose proof (@X12_growth_metrics_entry Examples.html_parser Examples.css_compile
                Examples.net1 Examples.page_url 200 Examples.page_markup sub_nav
                requests results H1 H2 H3) as T.
  exists results. split.
  - vm_compute in H3. injection H3 as <- <-. reflexivity.
  - assert (E : select_one sel_growth_div
                  (soup_of (Examples.html_parser Examples.page_markup)) = None)
      by (vm_compute; reflexivity).
    rewrite E in T. apply T.
    vm_compute in H2. injection H2 as <-. vm_compute. intros [H|[]]. discriminate.
Defined.

(** The one link of the example page: its entry is the balance sheet
    parser's reading of the section. *)
Lemma X16_section_entry_of_a_link_witness :
  link_target MoreExamples.page_link = Some ("Balance Sheet", "balance-sheet")
  /\ exists results',
       dispatch_links Examples.css_compile (soup_of Examples.page_nodes)
                      ([] ++ MoreExamples.page_link :: [])
                      (name_and_id (soup_of Examples.page_nodes))
       = Returned results'
       /\ PyDict.get "Balance Sheet" results'
          = Some (parse_balance_sheet_section MoreExamples.page_section).
Proof.
  assert (H1 : link_target MoreExamples.page_link
               = Some ("Balance Sheet", "balance-sheet")) by (vm_compute; reflexivity).
  assert (H2 : resolve_section Examples.css_compile "balance-sheet"
                 (soup_of Examples.page_nodes)
               = Returned (Some MoreExamples.page_section))
    by (vm_compute; reflexivity).
  assert (H3 : ~ In "Balance Sheet" (nav_labels [])) by (intros []).
  split; [exact H1|].
  destruct (dispatch_links Examples.css_compile (soup_of Examples.page_nodes)
              ([] ++ MoreExamples.page_link :: [])
              (name_and_id (soup_of Examples.page_nodes))) as [results'|e] eqn:H4;
    [|vm_compute in H4; discriminate].
  exists results'. split; [reflexivity|].
  exact (@X16_section_entry_of_a_link Examples.css_compile (soup_of Examples.page_nodes)
           [] MoreExamples.page_link [] "Balance Sheet" "balance-sheet"
           MoreExamples.page_section (name_and_id (soup_of Examples.page_nodes))
           results' H1 H2 H3 H4).
Defined.

(** ** The lookup of a link's address *)

Section RaiseFacts.
Variable css_compile : string -> option selector.

Lemma dispatch_links_raises (soup : tag) (nav_links : list tag)
    (results : results_t) (e : exn) :
  Forall (fun link => attr "href" link <> None) nav_links ->
  dispatch_links css_compile soup nav_links results = Raised e ->
  exists s, e = SelectorSyntaxError s /\ css_compile s = None.
Proof.
  intros Hl. revert results.
  induction Hl as [|link rest Hh _ IH]; intros results; simpl; [discriminate|].
  destruct (attr "href" link) as [href|]; [|congruence].
  destruct (negb (PyStr.startswith "#" href)); [apply IH|].
  destruct (negb (PyStr.truthy (PyStr.lstrip_hash href))); [apply IH|].
  cbv zeta. unfold resolve_section, select_one_str.
  destruct (css_compile ("section#" ++ PyStr.lstrip_hash href)) as [s1|] eqn:E1.
  - destruct (select_one s1 soup).
    + destruct (parser_for _ _); apply IH.
    + destruct (css_compile ("div#" ++ PyStr.lstrip_hash href)) as [s2|] eqn:E2.
      * destruct (select_one s2 soup); [|apply IH].
        destruct (parser_for _ _); apply IH.
      * intros [= <-]. eauto.
  - intros [= <-]. eauto.
Qed.

(** X17: the loop over the navigation links never fails on the lookup of
    a link's [href]: the links it is given are the anchors found with
    [href=True], so each has the attribute. *)
Theorem X17_href_lookup_never_fails (soup sub_nav : tag) (results : results_t)
    (key : string) :
  dispatch_links css_compile soup (find_all_with_attr "a" "href" sub_nav) results
  <> Raised (KeyError key).
Proof.
  intros H.
  destruct (dispatch_links_raises _ _ (find_all_with_attr_has "a" "href" sub_nav) H)
    as [s [Hs _]].
  discriminate.
Qed.

End RaiseFacts.
